(** * GitHub Projects automation: the field-value update dispatcher

    A shallow embedding of [github_projects_automation.py]: the field
    catalog built by [GitHubProjectsAPI.get_project_fields], the type
    dispatch of [GitHubProjectsAPI.update_field_value], and the two callers
    [GitHubProjectsAutomation.set_field] and
    [GitHubProjectsAutomation.bulk_update].

    Conventions of the embedding.
    - A Python [str] is a [string]; each character stands for one code point
      below 256.  On that range [str.strip] removes the code points 9-13,
      28-32, 133 and 160, and the regular-expression class [\d] is exactly
      the ten ASCII digits.
    - The built-in [float] is a parameter [py_float] of the development: it
      returns [None] where Python raises [ValueError].
    - [_execute_graphql_query] (the [gh api graphql] subprocess) is a
      parameter [execute_graphql_query], a transition on an abstract remote
      state that answers with the parsed JSON result or with the message of
      the [Exception] it raises.  A result is seen through the [.get]
      chains that read it, each object on a chain being an object or
      absent; a JSON [null] in the middle of a chain, on which [.get]
      raises [AttributeError], is not represented.
    - A row of [csv.DictReader] is a finite map from the column names of
      the header to cells; a cell is a string, or [None] where the row is
      shorter than the header.  A file is the list of rows the reader
      yields; a path on which [open] or the reader itself raises (a
      directory, bytes that do not decode, a field the reader refuses) is
      not represented.
    - Effects are threaded through a state-and-exception monad whose state
      is the remote server and the trace of observable events; [print],
      [logger.info] and [time.sleep] are events that always succeed. *)

From Stdlib Require Import String Ascii List Bool Arith ZArith Lia.
From stdpp Require Import base option strings gmap.
Import ListNotations.

Local Open Scope string_scope.
Local Open Scope list_scope.

(** ** Python strings *)

Module PyStr.

Definition LF : ascii := "010"%char.

(** [str.isspace] on one code point below 256. *)
Definition isspace (c : ascii) : bool :=
  let n := nat_of_ascii c in
  (((9 <=? n) && (n <=? 13)) || ((28 <=? n) && (n <=? 32))
   || (n =? 133) || (n =? 160))%nat.

(** The class [\d] on one code point below 256. *)
Definition isdigit (c : ascii) : bool :=
  let n := nat_of_ascii c in ((48 <=? n) && (n <=? 57))%nat.

Fixpoint lstrip (s : string) : string :=
  match s with
  | EmptyString => EmptyString
  | String c rest => if isspace c then lstrip rest else s
  end.

Fixpoint rstrip (s : string) : string :=
  match s with
  | EmptyString => EmptyString
  | String c rest =>
      match rstrip rest with
      | EmptyString => if isspace c then EmptyString else String c EmptyString
      | kept => String c kept
      end
  end.

(** [s.strip()] *)
Definition strip (s : string) : string := rstrip (lstrip s).

(** Truth value of a [str]: the empty string is falsy. *)
Definition truthy (s : string) : bool :=
  match s with EmptyString => false | String _ _ => true end.

(** ['/' in owner] *)
Fixpoint contains (c : ascii) (s : string) : bool :=
  match s with
  | EmptyString => false
  | String d rest => Ascii.eqb c d || contains c rest
  end.

(** [s.split(c)[0]]: the part of [s] before the first [c]. *)
Fixpoint split_head (c : ascii) (s : string) : string :=
  match s with
  | EmptyString => EmptyString
  | String d rest => if Ascii.eqb c d then EmptyString else String d (split_head c rest)
  end.

End PyStr.

(** ** The pattern of [re.match(r'^\d{4}-\d{2}-\d{2}$', value)] *)

Module Re.

Inductive atom : Type :=
| Digit                (* \d *)
| Lit (c : ascii).     (* a literal character *)

Definition atom_match (a : atom) (c : ascii) : bool :=
  match a with
  | Digit => PyStr.isdigit c
  | Lit d => Ascii.eqb d c
  end.

(** Consumes one character per atom from the start of the subject and
    returns what is left of it. *)
Fixpoint match_atoms (p : list atom) (s : string) : option string :=
  match p with
  | [] => Some s
  | a :: p' =>
      match s with
      | EmptyString => None
      | String c rest => if atom_match a c then match_atoms p' rest else None
      end
  end.

(** [$] without [re.MULTILINE]: the end of the subject, or the position
    just before a line feed that is the last character of the subject. *)
Definition dollar (rest : string) : bool :=
  match rest with
  | EmptyString => true
  | String c EmptyString => Ascii.eqb c PyStr.LF
  | String _ (String _ _) => false
  end.

(** [\d{4}-\d{2}-\d{2}] *)
Definition date_atoms : list atom :=
  repeat Digit 4 ++ [Lit "-"%char] ++ repeat Digit 2 ++ [Lit "-"%char] ++ repeat Digit 2.

(** Truth value of [re.match(r'^\d{4}-\d{2}-\d{2}$', value)]: [re.match]
    anchors at position 0, where [^] holds. *)
Definition date_match (value : string) : bool :=
  match match_atoms date_atoms value with
  | Some rest => dollar rest
  | None => false
  end.

End Re.

(** ** Data model *)

(** One entry of [field.options]: the keys of the JSON object that the
    code reads. *)
Record SelectOption : Type := { opt_id : string; opt_name : string }.

(** One entry of [field.iterations]. *)
Record Iteration : Type := { it_id : string; it_title : string }.

(** [@dataclass ProjectField] *)
Record ProjectField : Type := {
  id : string;
  name : string;
  data_type : string;
  options : list SelectOption;
  iterations : list Iteration
}.

(** The [configuration] object of an iteration field; [None] is an absent
    key. *)
Record Configuration : Type := {
  cfg_iterations : option (list Iteration);
  cfg_completedIterations : option (list Iteration)
}.

(** One element of [data.node.fields.nodes]. *)
Record FieldData : Type := {
  fd_id : string;
  fd_name : string;
  fd_dataType : string;
  fd_options : option (list SelectOption);
  fd_configuration : option Configuration
}.

(** The empty object, the default of [field_data.get('configuration', {})]. *)
Definition empty_configuration : Configuration :=
  {| cfg_iterations := None; cfg_completedIterations := None |}.

Definition present {A : Type} (o : option A) : bool :=
  match o with Some _ => true | None => false end.

(** Truth value of [field_data.get('configuration')]: an absent key and an
    empty object are both falsy. *)
Definition configuration_truthy (c : option Configuration) : bool :=
  match c with
  | None => false
  | Some cfg => present (cfg_iterations cfg) || present (cfg_completedIterations cfg)
  end.

(** ** The model

    Everything below is parametric in the built-in [float] and in the
    query executor. *)

Section Model.

(** Python's floats, and [float(value)] on a [str]: [None] stands for
    [ValueError]. *)
Context {PyFloat : Type}.
Variable py_float : string -> option PyFloat.

(** *** The field catalog: [get_project_fields], lines 214-228 *)

Definition field_of_data (field_data : FieldData) : ProjectField :=
  {| id := fd_id field_data;
     name := fd_name field_data;
     data_type := fd_dataType field_data;
     options := default [] (fd_options field_data);
     iterations :=
       if configuration_truthy (fd_configuration field_data) then
         let configuration := default empty_configuration (fd_configuration field_data) in
         default [] (cfg_iterations configuration)
           ++ default [] (cfg_completedIterations configuration)
       else [] |}.

Definition fields_of_data (fields_data : list FieldData) : list ProjectField :=
  map field_of_data fields_data.

(** *** The dispatcher: [update_field_value], lines 478-584 *)

(** The [value: { ... }] member of the mutation's input together with the
    variable bound to it. *)
Inductive typed_value : Type :=
| Text (value : string)
| Number (numeric_value : PyFloat)
| Date (value : string)
| SingleSelectOptionId (optionId : string)
| IterationId (iterationId : string).

Record MutationPayload : Type := {
  field_id : string;
  typed : typed_value
}.

(** The source raises the built-in [Exception] at every failure; the
    constructor records which [raise] statement it was and carries the
    message. *)
Inductive DispatchError : Type :=
| FieldNotFound (message : string)
| UnsupportedFieldType (message : string)
| ValueValidationError (message : string).

(** [next((f for f in fields if f.name == field_name), None)] *)
Definition find_field (fields : list ProjectField) (field_name : string)
  : option ProjectField :=
  find (fun f => bool_decide (name f = field_name)) fields.

(** [next((opt for opt in field.options if opt['name'] == value), None)] *)
Definition find_option (opts : list SelectOption) (value : string)
  : option SelectOption :=
  find (fun opt => bool_decide (opt_name opt = value)) opts.

(** [next((it for it in field.iterations if it['title'] == value), None)] *)
Definition find_iteration (its : list Iteration) (value : string)
  : option Iteration :=
  find (fun it => bool_decide (it_title it = value)) its.

(** The part of [update_field_value] between the fetch of the catalog and
    the call of the mutation: the lookup of the field, the branch on its
    type and the validation of the value.  The specification calls it
    [resolve]; the payload stands for the mutation document chosen and the
    entries of [mutation_vars] that depend on the field and the value. *)
Definition resolve (fields : list ProjectField) (field_name value : string)
  : DispatchError + MutationPayload :=
  match find_field fields field_name with
  | None => inl (FieldNotFound ("Field '" +:+ field_name +:+ "' not found in project"))
  | Some field =>
      if bool_decide (data_type field = "TEXT") then
        inr {| field_id := id field; typed := Text value |}
      else if bool_decide (data_type field = "NUMBER") then
        match py_float value with
        | Some numeric_value =>
            inr {| field_id := id field; typed := Number numeric_value |}
        | None => inl (ValueValidationError ("Invalid number format: " +:+ value))
        end
      else if bool_decide (data_type field = "DATE") then
        if Re.date_match value then
          inr {| field_id := id field; typed := Date value |}
        else
          inl (ValueValidationError
                 ("Invalid date format: " +:+ value +:+ " (expected YYYY-MM-DD)"))
      else if bool_decide (data_type field = "SINGLE_SELECT") then
        match find_option (options field) value with
        | Some option =>
            inr {| field_id := id field; typed := SingleSelectOptionId (opt_id option) |}
        | None =>
            inl (ValueValidationError
                   ("Option '" +:+ value +:+ "' not found in field '" +:+ field_name +:+ "'"))
        end
      else if bool_decide (data_type field = "ITERATION") then
        match find_iteration (iterations field) value with
        | Some iteration =>
            inr {| field_id := id field; typed := IterationId (it_id iteration) |}
        | None =>
            inl (ValueValidationError
                   ("Iteration '" +:+ value +:+ "' not found in field '" +:+ field_name +:+ "'"))
        end
      else
        inl (UnsupportedFieldType ("Unsupported field type: " +:+ data_type field))
  end.

(** *** The query executor *)

(** The GraphQL documents the code sends, each with the values bound to
    its variables or interpolated into it. *)
Inductive request : Type :=
| UserProjectQuery (username : string) (project_num : Z)
| OrganizationProjectQuery (owner : string) (project_num : Z)
| ProjectFieldsQuery (projectId : string)
| UpdateFieldMutation (projectId itemId : string) (payload : MutationPayload).

(** The parsed JSON result, seen through the [.get] chains that read it;
    a path that ends in a default or in [None] is [None] or [[]].  Every
    object on a chain is an object or absent: a [null] there, on which the
    next [.get] raises [AttributeError], has no counterpart here. *)
Record response : Type := {
  user_project_id : option string;          (* data.user.projectV2.id *)
  organization_project_id : option string;  (* data.organization.projectV2.id *)
  field_nodes : list FieldData;             (* data.node.fields.nodes *)
  updated_item : bool;   (* truth of data.updateProjectV2ItemFieldValue.projectV2Item *)
  errors : string                           (* rendering of result.get('errors', []) *)
}.

(** [_execute_graphql_query]: [inl message] is the [Exception] raised by
    [_execute_gh_command] when the subprocess fails or prints no JSON. *)
Context {Server : Type}.
Variable execute_graphql_query : request -> Server -> (string + response) * Server.

(** *** Exceptions, events and the monad *)

(** Instances of [Exception], by the statement that raises them. *)
Inductive error : Type :=
| TransportError (message : string)
| ProjectNotFound (project_num : Z) (owner : string)
| Dispatch (e : DispatchError)
| UpdateFailed (errors : string)
| AttributeError.            (* raised by the interpreter for [None.strip()] *)

Inductive exn : Type :=
| Exception (e : error)      (* caught by [except Exception] *)
| SystemExit (code : Z).     (* [sys.exit(code)], not an [Exception] *)

(** The lines written by [print] and [logger.info]. *)
Inductive output : Type :=
| SettingField (field_name value item_id : string)
| DryRunWouldSet (field_name value item_id : string)
| FieldUpdated (field_name value : string)
| FieldUpdateFailed (e : error)
| BulkUpdating
| FileNotFound
| RowMissingRequired (row_num : nat)
| RowStarted (row_num : nat) (item_id field_name value : string)
| DryRunWouldUpdate (item_id : string)
| RowUpdated (row_num : nat)
| RowFailed (row_num : nat) (e : error)
| BulkComplete (updated failed : nat)
| DryRunNotice.

Inductive event : Type :=
| Network (r : request)     (* one call of [_execute_graphql_query] *)
| Printed (o : output)
| Logged (o : output)
| Slept.                    (* [time.sleep(0.5)] *)

Record World : Type := { server : Server; trace : list event }.

Definition M (A : Type) : Type := World -> (exn + A) * World.

Definition ret {A : Type} (a : A) : M A := fun w => (inr a, w).

Definition bind {A B : Type} (m : M A) (k : A -> M B) : M B :=
  fun w => match m w with
           | (inr a, w') => k a w'
           | (inl e, w') => (inl e, w')
           end.

Definition raise {A : Type} (e : exn) : M A := fun w => (inl e, w).

Definition emit (ev : event) : M unit :=
  fun w => (inr tt, {| server := server w; trace := trace w ++ [ev] |}).

(** [try: body except Exception as e: handler] *)
Definition try_except {A : Type} (body : M A) (handler : error -> M A) : M A :=
  fun w => match body w with
           | (inl (Exception e), w') => handler e w'
           | other => other
           end.

Notation "x <- m ;; k" := (bind m (fun x => k))
  (at level 100, m at next level, right associativity).
Notation "m ;; k" := (bind m (fun _ => k))
  (at level 100, right associativity).

Definition print (o : output) : M unit := emit (Printed o).
Definition logger_info (o : output) : M unit := emit (Logged o).

Definition graphql (r : request) : M response :=
  fun w =>
    let '(answer, s) := execute_graphql_query r (server w) in
    let w' := {| server := s; trace := trace w ++ [Network r] |} in
    match answer with
    | inl message => (inl (Exception (TransportError message)), w')
    | inr result => (inr result, w')
    end.

(** *** [GitHubProjectsAPI] *)

Definition get_project_id (project_num : Z) (owner : string) : M string :=
  project_id <-
    (if PyStr.contains "/"%char owner then
       let username := PyStr.split_head "/"%char owner in
       result <- graphql (UserProjectQuery username project_num) ;;
       ret (user_project_id result)
     else
       result <- graphql (OrganizationProjectQuery owner project_num) ;;
       ret (organization_project_id result)) ;;
  match project_id with
  | Some (String c rest) => ret (String c rest)
  | Some EmptyString | None => raise (Exception (ProjectNotFound project_num owner))
  end.

Definition get_project_fields (project_num : Z) (owner : string) : M (list ProjectField) :=
  project_id <- get_project_id project_num owner ;;
  result <- graphql (ProjectFieldsQuery project_id) ;;
  ret (fields_of_data (field_nodes result)).

Definition update_field_value (project_num : Z) (owner item_id field_name value : string)
  : M bool :=
  project_id <- get_project_id project_num owner ;;
  fields <- get_project_fields project_num owner ;;
  match resolve fields field_name value with
  | inl e => raise (Exception (Dispatch e))
  | inr payload =>
      result <- graphql (UpdateFieldMutation project_id item_id payload) ;;
      if updated_item result then ret true
      else raise (Exception (UpdateFailed (errors result)))
  end.

(** *** [GitHubProjectsAutomation] *)

Definition set_field (project_num : Z) (owner item_id field_name value : string)
    (dry_run : bool) : M unit :=
  logger_info (SettingField field_name value item_id) ;;
  if dry_run then
    print (DryRunWouldSet field_name value item_id)
  else
    try_except
      (update_field_value project_num owner item_id field_name value ;;
       print (FieldUpdated field_name value))
      (fun e => print (FieldUpdateFailed e) ;; raise (SystemExit 1)).

(** A row of [csv.DictReader]: a dictionary from the column names of the
    header to the cells of the row.  A row with fewer cells than the header
    has [None] (the reader's [restval]) under the columns it does not
    reach. *)
Definition row_get (row : gmap string (option string)) (key : string)
  : option string :=
  default (Some "") (row !! key).     (* row.get(key, '') *)

(** [.strip()] on what [row.get] returned: [None] has no such method. *)
Definition cell_strip (cell : option string) : M string :=
  match cell with
  | Some s => ret (PyStr.strip s)
  | None => raise (Exception AttributeError)
  end.

(** The body of the [for] loop of [bulk_update] once the three cells are
    read, lines 761-780; the pair is [(updated, failed)]. *)
Definition bulk_cells (project_num : Z) (owner : string) (dry_run : bool)
    (row_num : nat) (item_id field_name value : string) (counts : nat * nat)
  : M (nat * nat) :=
  let '(updated, failed) := counts in
  if negb (PyStr.truthy item_id && PyStr.truthy field_name && PyStr.truthy value) then
    print (RowMissingRequired row_num) ;;
    ret (updated, S failed)
  else
    print (RowStarted row_num item_id field_name value) ;;
    if dry_run then
      print (DryRunWouldUpdate item_id) ;;
      ret (S updated, failed)
    else
      try_except
        (update_field_value project_num owner item_id field_name value ;;
         print (RowUpdated row_num) ;;
         emit Slept ;;
         ret (S updated, failed))
        (fun e => print (RowFailed row_num e) ;; ret (updated, S failed)).

(** The whole body, lines 757-780: the three cells are read and stripped,
    outside the [try], before anything else. *)
Definition bulk_row (project_num : Z) (owner : string) (dry_run : bool)
    (row_num : nat) (row : gmap string (option string)) (counts : nat * nat)
  : M (nat * nat) :=
  item_id <- cell_strip (row_get row "item_id") ;;
  field_name <- cell_strip (row_get row "field_name") ;;
  value <- cell_strip (row_get row "value") ;;
  bulk_cells project_num owner dry_run row_num item_id field_name value counts.

(** [for row_num, row in enumerate(reader, 2)] *)
Fixpoint bulk_rows (project_num : Z) (owner : string) (dry_run : bool)
    (rows : list (gmap string (option string))) (row_num : nat) (counts : nat * nat)
  : M (nat * nat) :=
  match rows with
  | [] => ret counts
  | row :: rest =>
      counts' <- bulk_row project_num owner dry_run row_num row counts ;;
      bulk_rows project_num owner dry_run rest (S row_num) counts'
  end.

(** [csv_file] is what the path holds: [None] when no file exists there,
    otherwise the rows [csv.DictReader] yields, in file order, for a file
    that [open] and the reader read without raising. *)
Definition bulk_update (project_num : Z) (owner : string)
    (csv_file : option (list (gmap string (option string)))) (dry_run : bool)
  : M unit :=
  logger_info BulkUpdating ;;
  match csv_file with
  | None => print FileNotFound ;; raise (SystemExit 1)
  | Some reader =>
      counts <- bulk_rows project_num owner dry_run reader 2 (0, 0) ;;
      print (BulkComplete (fst counts) (snd counts)) ;;
      if dry_run then print DryRunNotice else ret tt
  end.

End Model.

Arguments World : clear implicits.
Arguments M : clear implicits.

(** ** Other parts of [GitHubProjectsAPI] and of the listings *)

(** *** [get_content_id]: the URL of an issue or pull request, lines 365-398 *)

Module Url.

(** [s.replace(old, '')] for a non-empty [old]: every occurrence met when
    scanning from the left is dropped.  [skip] counts the characters of the
    occurrence under the scan that are still to be dropped. *)
Fixpoint remove (old : string) (skip : nat) (s : string) : string :=
  match s with
  | EmptyString => EmptyString
  | String c rest =>
      match skip with
      | S k => remove old k rest
      | O =>
          if String.prefix old s
          then remove old (String.length old - 1) rest
          else String c (remove old 0 rest)
      end
  end.

(** A literal of the pattern at the start of the subject; what follows it. *)
Fixpoint literal (lit s : string) : option string :=
  match lit with
  | EmptyString => Some s
  | String c lit' =>
      match s with
      | EmptyString => None
      | String d rest => if Ascii.eqb c d then literal lit' rest else None
      end
  end.

(** [[^/]+] followed by the literal [/]: the characters before the first
    slash and what follows that slash.  The run cannot end anywhere else,
    so backtracking finds no other match. *)
Fixpoint segment (s : string) : option (string * string) :=
  match s with
  | EmptyString => None
  | String c rest =>
      if Ascii.eqb c "/"%char then Some (EmptyString, rest)
      else
        match segment rest with
        | Some (run, after) => Some (String c run, after)
        | None => None
        end
  end.

(** [\d+], greedy and last in the pattern: the longest run of digits and
    what follows it. *)
Fixpoint digits (s : string) : string * string :=
  match s with
  | EmptyString => (EmptyString, EmptyString)
  | String c rest =>
      if PyStr.isdigit c
      then let '(run, after) := digits rest in (String c run, after)
      else (EmptyString, s)
  end.

(** [(issues|pull)] followed by the literal [/]. *)
Definition content_type (s : string) : option (string * string) :=
  match literal "issues/" s with
  | Some after => Some ("issues", after)
  | None =>
      match literal "pull/" s with
      | Some after => Some ("pull", after)
      | None => None
      end
  end.

(** The groups of
    [re.match(r'github\.com/([^/]+)/([^/]+)/(issues|pull)/(\d+)', subject)]:
    the match is anchored at the start of the subject only. *)
Definition groups (subject : string) : option (string * string * string * string) :=
  match literal "github.com/" subject with
  | Some s1 =>
      match segment s1 with
      | Some (String c o, s2) =>
          match segment s2 with
          | Some (String c' r, s3) =>
              match content_type s3 with
              | Some (kind, s4) =>
                  match digits s4 with
                  | (String d ds, _) => Some (String c o, String c' r, kind, String d ds)
                  | (EmptyString, _) => None
                  end
              | None => None
              end
          | Some (EmptyString, _) | None => None
          end
      | Some (EmptyString, _) | None => None
      end
  | None => None
  end.

End Url.

(** The two documents [get_content_id] chooses between, with the values
    interpolated into them. *)
Inductive content_request : Type :=
| IssueIdQuery (owner repo number : string)
| PullRequestIdQuery (owner repo number : string).

(** The part of [get_content_id] before the call of the executor: the URL
    is matched and the query chosen; [inl] is the message of the
    [Exception] raised for a URL that does not match. *)
Definition content_request_of_url (url : string) : string + content_request :=
  match Url.groups (Url.remove "https://" 0 url) with
  | None => inl ("Invalid GitHub URL format: " +:+ url)
  | Some (owner, repo, content_type, number) =>
      if bool_decide (content_type = "issues")
      then inr (IssueIdQuery owner repo number)
      else inr (PullRequestIdQuery owner repo number)
  end.

(** *** [get_project_items]: the field values of an item, lines 336-349 *)

Section FieldValues.

(** The JSON values found under [text], [name], [date], [number] and
    [title]. *)
Context {Scalar : Type}.

(** One element of [item_data.fieldValues.nodes], through the keys the
    loop reads: [None] is an absent key. *)
Record FieldValueData : Type := {
  fv_field_name : option string;
    (* field_value.get('field', {}).get('name'), for a node that has an
       object under [field] or no such key: [None] when the key or the name
       is missing or the name is null *)
  fv_text : option Scalar;
  fv_name : option Scalar;
  fv_date : option Scalar;
  fv_number : option Scalar;
  fv_title : option Scalar
}.

(** The body of the loop over the nodes. *)
Definition field_values_step (field_values : gmap string Scalar)
    (field_value : FieldValueData) : gmap string Scalar :=
  match fv_field_name field_value with
  | Some field_name =>
      if PyStr.truthy field_name then
        match fv_text field_value with
        | Some text => <[field_name := text]> field_values
        | None =>
        match fv_name field_value with
        | Some name => <[field_name := name]> field_values
        | None =>
        match fv_date field_value with
        | Some date => <[field_name := date]> field_values
        | None =>
        match fv_number field_value with
        | Some number => <[field_name := number]> field_values
        | None =>
        match fv_title field_value with
        | Some title => <[field_name := title]> field_values
        | None => field_values
        end end end end end
      else field_values
  | None => field_values
  end.

(** [field_values = {}] and the loop. *)
Definition parse_field_values (nodes : list FieldValueData) : gmap string Scalar :=
  fold_left field_values_step nodes ∅.

End FieldValues.

Arguments FieldValueData : clear implicits.

(** *** The table listings: lines 639 and 689 *)

(** [s[:n]] *)
Definition slice_to (n : nat) (s : string) : string := substring 0 n s.

(** [item.title[:47] + "..." if len(item.title) > 50 else item.title] *)
Definition display_title (title : string) : string :=
  if (50 <? String.length title)%nat then slice_to 47 title +:+ "..." else title.

(** [config[:27] + "..." if len(config) > 30 else config] *)
Definition display_config (config : string) : string :=
  if (30 <? String.length config)%nat then slice_to 27 config +:+ "..." else config.

(** ** Closed instances of the parameters, used by the examples *)

Module Example.

(** A reader of plain decimal numerals in the place of [float]: an optional
    sign, digits, and an optional fraction, read exactly as a mantissa and a
    count of fractional digits.  Python's [float] accepts more (exponents,
    [inf], [nan], surrounding white space) and rounds to a double. *)
Fixpoint digits_value (s : string) (acc : Z) : option Z :=
  match s with
  | EmptyString => Some acc
  | String c rest =>
      if PyStr.isdigit c
      then digits_value rest (10 * acc + (Z.of_nat (nat_of_ascii c) - 48))%Z
      else None
  end.

Fixpoint after_point (s : string) : string :=
  match s with
  | EmptyString => EmptyString
  | String c rest => if Ascii.eqb c "."%char then rest else after_point rest
  end.

Definition decimal (s : string) : option (Z * nat) :=
  let '(sign, body) :=
    match s with
    | String "-"%char rest => ((-1)%Z, rest)
    | String "+"%char rest => (1%Z, rest)
    | _ => (1%Z, s)
    end in
  let whole := PyStr.split_head "."%char body in
  let fraction := after_point body in
  if PyStr.truthy (whole +:+ fraction) then
    match digits_value (whole +:+ fraction) 0 with
    | Some m => Some ((sign * m)%Z, String.length fraction)
    | None => None
    end
  else None.

Definition status_options : list SelectOption :=
  [ {| opt_id := "o1"; opt_name := "Todo" |};
    {| opt_id := "o2"; opt_name := "Done" |};
    {| opt_id := "o3"; opt_name := "Done" |} ].

Definition sprint_configuration : Configuration :=
  {| cfg_iterations :=
       Some [ {| it_id := "i2"; it_title := "Sprint 2" |};
              {| it_id := "i3"; it_title := "Sprint 3" |} ];
     cfg_completedIterations :=
       Some [ {| it_id := "i1"; it_title := "Sprint 1" |};
              {| it_id := "i0"; it_title := "Sprint 2" |} ] |}.

Definition plain (field_id field_name dataType : string) : FieldData :=
  {| fd_id := field_id; fd_name := field_name; fd_dataType := dataType;
     fd_options := None; fd_configuration := None |}.

Definition sprint_data : FieldData :=
  {| fd_id := "F2"; fd_name := "Sprint"; fd_dataType := "ITERATION";
     fd_options := None; fd_configuration := Some sprint_configuration |}.

Definition status_data : FieldData :=
  {| fd_id := "F1"; fd_name := "Status"; fd_dataType := "SINGLE_SELECT";
     fd_options := Some status_options; fd_configuration := None |}.

(** The [nodes] of a project with one field of each kind. *)
Definition fields_data : list FieldData :=
  [ status_data;
    sprint_data;
    plain "F3" "Due" "DATE";
    plain "F4" "Points" "NUMBER";
    plain "F5" "Notes" "TEXT";
    plain "F6" "Body" "TEXTAREA" ].

Definition fields : list ProjectField := fields_of_data fields_data.

Definition answer (project : option string) (nodes : list FieldData) (updated : bool)
  : response :=
  {| user_project_id := project; organization_project_id := project;
     field_nodes := nodes; updated_item := updated; errors := "[]" |}.

(** A remote end holding the project above.  Its state counts the calls it
    has answered; a mutation addressed to the item [GONE] makes the
    subprocess fail. *)
Definition execute (r : @request (Z * nat)) (calls : nat)
  : (string + response) * nat :=
  match r with
  | UserProjectQuery _ _ | OrganizationProjectQuery _ _ =>
      (inr (answer (Some "PVT_1") [] false), S calls)
  | ProjectFieldsQuery _ =>
      (inr (answer None fields_data false), S calls)
  | UpdateFieldMutation _ itemId _ =>
      if bool_decide (itemId = "GONE")
      then (inl "GitHub CLI command failed", S calls)
      else (inr (answer None [] true), S calls)
  end.

Definition start : World (Z * nat) nat := {| server := 0; trace := [] |}.

(** One row of a file whose header is [item_id,field_name,value]. *)
Definition row (item_id field_name value : string) : gmap string (option string) :=
  {[ "item_id" := Some item_id; "field_name" := Some field_name;
     "value" := Some value ]}.

(** A row of that file with two cells only: the reader fills the third
    with [None]. *)
Definition short_row (item_id field_name : string) : gmap string (option string) :=
  {[ "item_id" := Some item_id; "field_name" := Some field_name; "value" := None ]}.

(** A file with one row per outcome: updated, empty value, unknown field,
    failing transport, malformed date, unsupported type, padded cells. *)
Definition reader : list (gmap string (option string)) :=
  [ row "IT1" "Status" "Done";
    row "IT2" "Priority" "";
    row "IT3" "Priority" "High";
    row "GONE" "Notes" "hi";
    row "IT5" "Due" "01-15-2024";
    row "IT6" "Body" "x";
    row " IT7 " "Points" " 3.14 " ].

(** A file whose second row stops after the field name. *)
Definition ragged_reader : list (gmap string (option string)) :=
  [ row "IT1" "Status" "Done";
    short_row "IT2" "Priority";
    row "IT3" "Notes" "hi" ].

End Example.

(** ** Vocabulary of the statements *)

(** The five types [update_field_value] has a branch for. *)
Definition known_types : list string :=
  ["TEXT"; "NUMBER"; "DATE"; "SINGLE_SELECT"; "ITERATION"].

(** The strings of the shape YYYY-MM-DD: four digits, a hyphen, two digits,
    a hyphen, two digits, and nothing else. *)
Definition date_string (y1 y2 y3 y4 m1 m2 d1 d2 : ascii) : string :=
  String y1 (String y2 (String y3 (String y4 (String "-"
    (String m1 (String m2 (String "-" (String d1 (String d2 EmptyString))))))))).

Definition date_shaped (value : string) : Prop :=
  exists y1 y2 y3 y4 m1 m2 d1 d2,
    forallb PyStr.isdigit [y1; y2; y3; y4; m1; m2; d1; d2] = true
    /\ value = date_string y1 y2 y3 y4 m1 m2 d1 d2.

Definition line_feed : string := String PyStr.LF EmptyString.

(** A cell made of white space only; the empty cell is one. *)
Definition blank (cell : string) : bool :=
  forallb PyStr.isspace (list_ascii_of_string cell).

(** A row with a string in each of the three cells; a column missing from
    the header counts, since it reads as the empty string. *)
Definition rectangular (row : gmap string (option string)) : bool :=
  present (row_get row "item_id") && present (row_get row "field_name")
  && present (row_get row "value").

(** The three stripped cells of a rectangular row. *)
Definition row_item_id (row : gmap string (option string)) : string :=
  PyStr.strip (default "" (row_get row "item_id")).

Definition row_field_name (row : gmap string (option string)) : string :=
  PyStr.strip (default "" (row_get row "field_name")).

Definition row_value (row : gmap string (option string)) : string :=
  PyStr.strip (default "" (row_get row "value")).

(** Three cells none of which is empty. *)
Definition complete (item_id field_name value : string) : bool :=
  PyStr.truthy item_id && PyStr.truthy field_name && PyStr.truthy value.

Definition row_complete (row : gmap string (option string)) : bool :=
  complete (row_item_id row) (row_field_name row) (row_value row).

(** The world after more events, the server untouched. *)
Definition after {PyFloat Server : Type} (w : World PyFloat Server)
    (evs : list (@event PyFloat)) : World PyFloat Server :=
  {| server := server w; trace := trace w ++ evs |}.

(** A computation that only adds events satisfying [P] to the trace. *)
Definition emits {PyFloat Server A : Type} (P : @event PyFloat -> Prop)
    (m : M PyFloat Server A) : Prop :=
  forall w, exists evs, trace (snd (m w)) = trace w ++ evs /\ Forall P evs.

(** A computation that, when it fails, fails with an [Exception]: nothing
    it raises escapes [except Exception]. *)
Definition catchable {PyFloat Server A : Type} (m : M PyFloat Server A) : Prop :=
  forall w, match fst (m w) with inl (SystemExit _) => False | _ => True end.

(** Events that are not calls of the query executor. *)
Definition offline {PyFloat : Type} (ev : @event PyFloat) : Prop :=
  match ev with Network _ => False | _ => True end.

(** Events other than a mutation that sets a TEXT value to the empty
    string. *)
Definition no_empty_text {PyFloat : Type} (ev : @event PyFloat) : Prop :=
  match ev with
  | Network (UpdateFieldMutation _ _ {| typed := Text EmptyString |}) => False
  | _ => True
  end.

(** A computation that leaves the server as it is and adds only offline
    events to the trace. *)
Definition offline_run {PyFloat Server A : Type} (m : M PyFloat Server A) : Prop :=
  forall w, exists evs, snd (m w) = after w evs /\ Forall offline evs.

(** What a dry run of rectangular rows prints, row by row. *)
Fixpoint dry_run_lines {PyFloat : Type} (rows : list (gmap string (option string)))
    (row_num : nat) : list (@event PyFloat) :=
  match rows with
  | [] => []
  | row :: rest =>
      (if row_complete row
       then [Printed (RowStarted row_num (row_item_id row) (row_field_name row)
                        (row_value row));
             Printed (DryRunWouldUpdate (row_item_id row))]
       else [Printed (RowMissingRequired row_num)])
      ++ dry_run_lines rest (S row_num)
  end.

(** **** Vocabulary of the further properties *)

(** The query [get_project_id] sends for an owner. *)
Definition project_query {PyFloat : Type} (project_num : Z) (owner : string)
  : @request PyFloat :=
  if PyStr.contains "/"%char owner
  then UserProjectQuery (PyStr.split_head "/"%char owner) project_num
  else OrganizationProjectQuery owner project_num.

(** The four calls of one update, in the order they are made: the project
    id is looked up twice, once for the mutation and once for the
    catalog. *)
Definition update_calls {PyFloat : Type} (project_num : Z) (owner item_id : string)
    (project_id catalog_project_id : string) (payload : @MutationPayload PyFloat)
  : list (@event PyFloat) :=
  [ Network (project_query project_num owner);
    Network (project_query project_num owner);
    Network (ProjectFieldsQuery catalog_project_id);
    Network (UpdateFieldMutation project_id item_id payload) ].

Definition no_payload {PyFloat : Type} : @MutationPayload PyFloat :=
  {| field_id := ""; typed := Text "" |}.

(** Events an update of [item_id] may add for a field name and a value:
    calls of the executor only, and among mutations only one for that item
    whose payload the dispatcher produced from some catalog. *)
Definition sent_for {PyFloat : Type} (py_float : string -> option PyFloat)
    (item_id field_name value : string) (ev : @event PyFloat) : Prop :=
  match ev with
  | Network (UpdateFieldMutation _ itemId payload) =>
      itemId = item_id
      /\ exists fields, resolve py_float fields field_name value = inr payload
  | Network _ => True
  | _ => False
  end.

Definition is_mutation {PyFloat : Type} (ev : @event PyFloat) : bool :=
  match ev with Network (UpdateFieldMutation _ _ _) => true | _ => false end.

(** The number of mutations sent in a trace. *)
Definition mutations {PyFloat : Type} (t : list (@event PyFloat)) : nat :=
  length (List.filter is_mutation t).

(** The code points below 256 that [str.isspace] holds of: tab to carriage
    return, the four separators, space, next line, no-break space. *)
Definition white_space : list nat := [9; 10; 11; 12; 13; 28; 29; 30; 31; 32; 133; 160].

(** The last character of [String c s]. *)
Fixpoint last_char (c : ascii) (s : string) : ascii :=
  match s with
  | EmptyString => c
  | String d rest => last_char d rest
  end.

(** A string with no white space at either end: its first and its last
    character are not white space; the empty string is one. *)
Definition trimmed (s : string) : bool :=
  match s with
  | EmptyString => true
  | String c rest => negb (PyStr.isspace c) && negb (PyStr.isspace (last_char c rest))
  end.

(** [t] is [s] without the white space at its two ends: [s] is white
    space, then [t], then white space, and [t] has none at either end. *)
Definition strips_to (s t : string) : Prop :=
  exists l r, s = l +:+ t +:+ r /\ blank l = true /\ blank r = true /\ trimmed t = true.

(** Events whose cells carry no white space at either end: the reports of
    a started row, and the mutations, in their item id and in the value of
    a TEXT or DATE payload. *)
Definition cells_trimmed {PyFloat : Type} (ev : @event PyFloat) : Prop :=
  match ev with
  | Network (UpdateFieldMutation _ itemId payload) =>
      trimmed itemId = true
      /\ match typed payload with
         | Text v | Date v => trimmed v = true
         | _ => True
         end
  | Printed (RowStarted _ item_id field_name value) =>
      trimmed item_id = true /\ trimmed field_name = true /\ trimmed value = true
  | _ => True
  end.

(** The id [get_project_id] reads in an answer: under [user] for an owner
    written with a slash, under [organization] otherwise. *)
Definition answered_project_id (owner : string) (result : response) : option string :=
  if PyStr.contains "/"%char owner
  then user_project_id result
  else organization_project_id result.

(** [old] occurs somewhere in [s]. *)
Fixpoint occurs (old s : string) : bool :=
  String.prefix old s
  || match s with
     | EmptyString => false
     | String _ rest => occurs old rest
     end.

Definition no_slash (s : string) : bool := negb (PyStr.contains "/"%char s).

Definition all_digits (s : string) : bool :=
  forallb PyStr.isdigit (list_ascii_of_string s).

Definition starts_with_digit (s : string) : bool :=
  match s with String c _ => PyStr.isdigit c | EmptyString => false end.

(** The query for a content type, an owner, a repository and a number. *)
Definition content_request_for (kind owner repo number : string) : content_request :=
  if bool_decide (kind = "issues")
  then IssueIdQuery owner repo number
  else PullRequestIdQuery owner repo number.

(** A URL without its scheme: host, owner, repository, content type,
    number, and whatever follows the number. *)
Definition content_subject (owner repo kind number suffix : string) : string :=
  "github.com/" +:+ owner +:+ "/" +:+ repo +:+ "/" +:+ kind +:+ "/" +:+ number +:+ suffix.

(** The value the loop of [get_project_items] records for a node: the first
    of its [text], [name], [date], [number] and [title] that is present. *)
Definition recorded_value {Scalar : Type} (fv : FieldValueData Scalar) : option Scalar :=
  match fv_text fv, fv_name fv, fv_date fv, fv_number fv, fv_title fv with
  | Some v, _, _, _, _
  | None, Some v, _, _, _
  | None, None, Some v, _, _
  | None, None, None, Some v, _
  | None, None, None, None, Some v => Some v
  | None, None, None, None, None => None
  end.

(** A node that records a value under the field name [n]. *)
Definition records {Scalar : Type} (n : string) (fv : FieldValueData Scalar) : bool :=
  bool_decide (fv_field_name fv = Some n) && PyStr.truthy n && present (recorded_value fv).

(** ** Properties *)

(** *** First match of a linear scan *)

Section FirstMatch.

Context {A : Type} (p : A -> bool).

Lemma find_first (pre : list A) (x : A) (post : list A) :
  Forall (fun y => p y = false) pre -> p x = true ->
  find p (pre ++ x :: post) = Some x.
Proof.
  intros Hpre Hx. induction Hpre as [|y pre Hy _ IH]; simpl.
  - now rewrite Hx.
  - now rewrite Hy.
Qed.

Lemma find_all_false (l : list A) :
  (forall x, In x l -> p x = false) -> find p l = None.
Proof.
  induction l as [|y l IH]; simpl; intros H; [reflexivity|].
  rewrite (H y) by now left. apply IH. intros x Hx. apply H. now right.
Qed.

Lemma find_split (l : list A) (x : A) :
  find p l = Some x ->
  exists pre post, l = pre ++ x :: post /\ Forall (fun y => p y = false) pre /\ p x = true.
Proof.
  induction l as [|y l IH]; simpl; [discriminate|].
  destruct (p y) eqn:Hy.
  - intros [= ->]. exists [], l. repeat split; [constructor | assumption].
  - intros H. destruct (IH H) as (pre & post & -> & Hpre & Hx).
    exists (y :: pre), post. repeat split; [constructor|]; assumption.
Qed.

End FirstMatch.

(** *** Stripping *)

Lemma lstrip_blank (s : string) : blank s = true -> PyStr.lstrip s = "".
Proof.
  unfold blank. induction s as [|c s IH]; simpl; [reflexivity|].
  intros H. apply andb_true_iff in H as [Hc Hs]. rewrite Hc. now apply IH.
Qed.

Lemma lstrip_empty_blank (s : string) : PyStr.lstrip s = "" -> blank s = true.
Proof.
  unfold blank. induction s as [|c s IH]; simpl; [reflexivity|].
  destruct (PyStr.isspace c); [exact IH | discriminate].
Qed.

Lemma rstrip_head (c : ascii) (s : string) :
  PyStr.isspace c = false -> PyStr.rstrip (String c s) <> "".
Proof.
  intros Hc. simpl. destruct (PyStr.rstrip s); [now rewrite Hc | discriminate].
Qed.

Lemma lstrip_head (s : string) :
  PyStr.lstrip s = "" \/ exists c rest, PyStr.lstrip s = String c rest /\ PyStr.isspace c = false.
Proof.
  induction s as [|c s IH]; simpl; [now left|].
  destruct (PyStr.isspace c) eqn:Hc; [exact IH|]. right. now exists c, s.
Qed.

(** A cell strips to the empty string exactly when it is blank. *)
Lemma strip_empty_iff (s : string) : PyStr.strip s = "" <-> blank s = true.
Proof.
  unfold PyStr.strip. split.
  - intros H. apply lstrip_empty_blank.
    destruct (lstrip_head s) as [Hl | (c & rest & Hl & Hc)]; [exact Hl|].
    rewrite Hl in H. now apply rstrip_head in H.
  - intros H. now rewrite (lstrip_blank _ H).
Qed.

Lemma isspace_white_space (c : ascii) :
  PyStr.isspace c = existsb (Nat.eqb (nat_of_ascii c)) white_space.
Proof. destruct c as [[] [] [] [] [] [] [] []]; vm_compute; reflexivity. Qed.

(** What [lstrip] drops is white space. *)
Lemma lstrip_split (s : string) :
  exists l, s = l +:+ PyStr.lstrip s /\ blank l = true.
Proof.
  induction s as [|c s (l & Hs & Hl)]; [now exists ""|]. cbn [PyStr.lstrip].
  destruct (PyStr.isspace c) eqn:Hc; [|now exists ""].
  exists (String c l). split.
  - change (String c l +:+ PyStr.lstrip s) with (String c (l +:+ PyStr.lstrip s)).
    now rewrite <- Hs.
  - unfold blank in *. simpl. now rewrite Hc.
Qed.

(** What [rstrip] drops is white space. *)
Lemma rstrip_split (s : string) :
  exists r, s = PyStr.rstrip s +:+ r /\ blank r = true.
Proof.
  induction s as [|c s (r & Hs & Hr)]; [now exists ""|]. cbn [PyStr.rstrip].
  destruct (PyStr.rstrip s) as [|d kept].
  - change ("" +:+ r) with r in Hs. subst s.
    destruct (PyStr.isspace c) eqn:Hc.
    + exists (String c r). split; [reflexivity|]. unfold blank in *. simpl. now rewrite Hc.
    + now exists r.
  - exists r. split; [|exact Hr].
    change (String c (String d kept) +:+ r) with (String c (String d kept +:+ r)).
    now rewrite <- Hs.
Qed.

(** What [rstrip] keeps does not end with white space. *)
Lemma rstrip_last (s : string) :
  forall c kept, PyStr.rstrip s = String c kept -> PyStr.isspace (last_char c kept) = false.
Proof.
  induction s as [|a s IH]; [discriminate|]. intros c kept. cbn [PyStr.rstrip].
  destruct (PyStr.rstrip s) as [|d kept'].
  - destruct (PyStr.isspace a) eqn:Ha; [discriminate|]. now intros [= <- <-].
  - intros [= <- <-]. cbn [last_char]. now apply IH.
Qed.

Lemma rstrip_first (c : ascii) (s : string) :
  PyStr.isspace c = false -> exists kept, PyStr.rstrip (String c s) = String c kept.
Proof.
  intros Hc. simpl. destruct (PyStr.rstrip s) as [|d kept]; [rewrite Hc|]; eauto.
Qed.

Lemma strip_trimmed (s : string) : trimmed (PyStr.strip s) = true.
Proof.
  unfold PyStr.strip.
  destruct (lstrip_head s) as [-> | (c & rest & -> & Hc)]; [reflexivity|].
  destruct (rstrip_first c rest Hc) as [kept Hkept]. rewrite Hkept. unfold trimmed.
  now rewrite Hc, (rstrip_last _ _ _ Hkept).
Qed.

(** [s.strip()] is [s] without the white space at its two ends. *)
Lemma strip_strips (s : string) : strips_to s (PyStr.strip s).
Proof.
  destruct (lstrip_split s) as (l & Hs & Hl).
  destruct (rstrip_split (PyStr.lstrip s)) as (r & Hm & Hr).
  exists l, r. unfold PyStr.strip.
  split; [now rewrite <- Hm|]. split; [exact Hl|]. split; [exact Hr|].
  apply strip_trimmed.
Qed.

Lemma lstrip_blank_app (l s : string) :
  blank l = true -> PyStr.lstrip (l +:+ s) = PyStr.lstrip s.
Proof.
  unfold blank. induction l as [|c l IH]; [reflexivity|]. simpl.
  intros H. apply andb_true_iff in H as [Hc Hl].
  change (String c l +:+ s) with (String c (l +:+ s)). cbn [PyStr.lstrip].
  rewrite Hc. now apply IH.
Qed.

Lemma rstrip_blank (r : string) : blank r = true -> PyStr.rstrip r = "".
Proof.
  unfold blank. induction r as [|c r IH]; [reflexivity|]. simpl.
  intros H. apply andb_true_iff in H as [Hc Hr]. now rewrite (IH Hr), Hc.
Qed.

Lemma rstrip_app_blank (c : ascii) (t r : string) :
  PyStr.isspace (last_char c t) = false -> blank r = true ->
  PyStr.rstrip (String c t +:+ r) = String c t.
Proof.
  intros Hlast Hr. revert c Hlast. induction t as [|d t IH]; intros c Hlast.
  - change (String c "" +:+ r) with (String c r). cbn [PyStr.rstrip].
    rewrite (rstrip_blank _ Hr). cbn [last_char] in Hlast. now rewrite Hlast.
  - change (String c (String d t) +:+ r) with (String c (String d t +:+ r)).
    cbn [PyStr.rstrip]. cbn [last_char] in Hlast. now rewrite (IH d Hlast).
Qed.

(** Only [s.strip()] is [s] without the white space at its two ends. *)
Lemma strips_to_strip (s t : string) : strips_to s t -> t = PyStr.strip s.
Proof.
  intros (l & r & -> & Hl & Hr & Ht). unfold PyStr.strip.
  rewrite (lstrip_blank_app _ _ Hl). destruct t as [|c t].
  - change ("" +:+ r) with r. now rewrite (lstrip_blank _ Hr).
  - unfold trimmed in Ht. apply andb_true_iff in Ht as [Hc Hlast].
    apply negb_true_iff in Hc, Hlast.
    change (String c t +:+ r) with (String c (t +:+ r)). cbn [PyStr.lstrip]. rewrite Hc.
    change (String c (t +:+ r)) with (String c t +:+ r).
    now rewrite (rstrip_app_blank _ _ _ Hlast Hr).
Qed.

Lemma truthy_false_iff (s : string) : PyStr.truthy s = false <-> s = "".
Proof. destruct s; simpl; split; congruence. Qed.

(** Three cells are incomplete exactly when one of them is empty. *)
Lemma complete_false_iff (item_id field_name value : string) :
  complete item_id field_name value = false <->
  item_id = "" \/ field_name = "" \/ value = "".
Proof.
  unfold complete. rewrite !andb_false_iff, !truthy_false_iff. tauto.
Qed.

Lemma complete_true_iff (item_id field_name value : string) :
  complete item_id field_name value = true <->
  item_id <> "" /\ field_name <> "" /\ value <> "".
Proof.
  destruct (complete item_id field_name value) eqn:H.
  - split; [intros _ | reflexivity].
    assert (Hn : ~ (item_id = "" \/ field_name = "" \/ value = "")).
    { intros Hempty. apply complete_false_iff in Hempty. congruence. }
    tauto.
  - apply complete_false_iff in H. split; [discriminate | tauto].
Qed.

(** *** The DATE pattern *)

Lemma append_empty (v : string) : v +:+ "" = v.
Proof.
  induction v as [|c v IH]; [reflexivity|].
  change (String c (v +:+ "") = String c v). now rewrite IH.
Qed.

Lemma date_string_match (y1 y2 y3 y4 m1 m2 d1 d2 : ascii) (rest : string) :
  forallb PyStr.isdigit [y1; y2; y3; y4; m1; m2; d1; d2] = true ->
  Re.match_atoms Re.date_atoms (date_string y1 y2 y3 y4 m1 m2 d1 d2 +:+ rest) = Some rest.
Proof.
  cbn [forallb]. rewrite !andb_true_iff.
  intros (H1 & H2 & H3 & H4 & H5 & H6 & H7 & H8 & _).
  unfold Re.date_atoms, date_string. cbv [String.append].
  cbn [repeat app Re.match_atoms Re.atom_match].
  rewrite H1, H2, H3, H4, H5, H6, H7, H8. reflexivity.
Qed.

Lemma match_atoms_date (value rest : string) :
  Re.match_atoms Re.date_atoms value = Some rest ->
  exists v, date_shaped v /\ value = v +:+ rest.
Proof.
  unfold Re.date_atoms. cbn [repeat app].
  destruct value as [|y1 [|y2 [|y3 [|y4 [|h1 [|m1 [|m2 [|h2 [|d1 [|d2 tail]]]]]]]]]];
    cbn [Re.match_atoms];
    repeat match goal with
           | |- context [Re.atom_match ?a ?c] =>
               destruct (Re.atom_match a c) eqn:?; cbn [Re.match_atoms]
           end;
    try discriminate.
  intros [= ->].
  repeat match goal with
         | H : Re.atom_match (Re.Lit _) _ = true |- _ =>
             cbn [Re.atom_match] in H; apply Ascii.eqb_eq in H; subst
         | H : Re.atom_match Re.Digit _ = true |- _ => cbn [Re.atom_match] in H
         end.
  exists (date_string y1 y2 y3 y4 m1 m2 d1 d2). split; [|reflexivity].
  exists y1, y2, y3, y4, m1, m2, d1, d2. split; [|reflexivity]. cbn [forallb].
  repeat match goal with H : PyStr.isdigit _ = true |- _ => rewrite H; clear H end.
  reflexivity.
Qed.

(** What the pattern accepts: the strings of the shape YYYY-MM-DD, and
    those strings followed by one line feed. *)
Lemma date_match_iff (value : string) :
  Re.date_match value = true <->
  date_shaped value \/ exists v, date_shaped v /\ value = v +:+ line_feed.
Proof.
  unfold Re.date_match. split.
  - destruct (Re.match_atoms Re.date_atoms value) as [rest|] eqn:Hm; [|discriminate].
    apply match_atoms_date in Hm as (v & Hv & ->).
    destruct rest as [|c [|? ?]]; simpl; [| |discriminate].
    + intros _. left. now rewrite append_empty.
    + intros Hc. apply Ascii.eqb_eq in Hc. subst c. right. now exists v.
  - intros [Hv | (v & Hv & ->)];
      destruct Hv as (y1 & y2 & y3 & y4 & m1 & m2 & d1 & d2 & Hd & ->).
    + pose proof (date_string_match _ _ _ _ _ _ _ _ "" Hd) as Hm.
      rewrite append_empty in Hm. now rewrite Hm.
    + now rewrite (date_string_match _ _ _ _ _ _ _ _ _ Hd).
Qed.

(** *** The dispatcher *)

Section Dispatcher.

Context {PyFloat : Type} (py_float : string -> option PyFloat).

Ltac branch Hfind Htype :=
  unfold resolve; rewrite Hfind, Htype;
  repeat (rewrite bool_decide_eq_false_2 by discriminate);
  try (rewrite bool_decide_eq_true_2 by reflexivity).

Lemma name_test_false (field_name : string) (fields : list ProjectField) :
  (forall f, In f fields -> name f <> field_name) ->
  forall f, In f fields -> bool_decide (name f = field_name) = false.
Proof. intros H f Hf. apply bool_decide_eq_false_2, H, Hf. Qed.

(** The field the scan selects is in the catalog and carries exactly the
    requested name; every field before it carries another name. *)
Lemma find_field_exact (fields : list ProjectField) (field_name : string)
    (field : ProjectField) :
  find_field fields field_name = Some field <->
  exists pre post, fields = pre ++ field :: post
    /\ Forall (fun f => name f <> field_name) pre /\ name field = field_name.
Proof.
  unfold find_field. split.
  - intros H. destruct (find_split _ _ _ H) as (pre & post & -> & Hpre & Hx).
    exists pre, post. repeat split.
    + eapply Forall_impl; [exact Hpre|]. intros f Hf. simpl in Hf.
      now apply bool_decide_eq_false_1 in Hf.
    + now apply bool_decide_eq_true_1 in Hx.
  - intros (pre & post & -> & Hpre & Hx). apply find_first.
    + eapply Forall_impl; [exact Hpre|]. intros f Hf. now apply bool_decide_eq_false_2.
    + now apply bool_decide_eq_true_2.
Qed.

(** C1. When no field of the catalog is named exactly [field_name], the
    dispatcher fails with [FieldNotFound], whatever the value and whatever
    the types of the fields: the scan compares whole names for equality. *)
Theorem resolve_field_not_found (fields : list ProjectField) (field_name : string) :
  (forall f, In f fields -> name f <> field_name) ->
  forall value,
    resolve py_float fields field_name value
    = inl (FieldNotFound ("Field '" +:+ field_name +:+ "' not found in project")).
Proof.
  intros Hnone value. unfold resolve, find_field.
  rewrite find_all_false; [reflexivity|].
  now apply name_test_false.
Qed.

(** C9. On a TEXT field the dispatcher accepts every string and the payload
    carries it unchanged. *)
Theorem resolve_text_identity (fields : list ProjectField) (field_name : string)
    (field : ProjectField) :
  find_field fields field_name = Some field ->
  data_type field = "TEXT" ->
  forall value,
    resolve py_float fields field_name value
    = inr {| field_id := id field; typed := Text value |}.
Proof. intros Hfind Htype value. now branch Hfind Htype. Qed.

(** C3. On a NUMBER field the dispatcher succeeds exactly when [float]
    parses the value; the payload then carries the parsed float, and
    otherwise the validation error quotes the raw string. *)
Theorem resolve_number (fields : list ProjectField) (field_name : string)
    (field : ProjectField) :
  find_field fields field_name = Some field ->
  data_type field = "NUMBER" ->
  forall value,
    ((exists payload, resolve py_float fields field_name value = inr payload)
     <-> exists x, py_float value = Some x)
    /\ (forall x, py_float value = Some x ->
          resolve py_float fields field_name value
          = inr {| field_id := id field; typed := Number x |})
    /\ (py_float value = None ->
          resolve py_float fields field_name value
          = inl (ValueValidationError ("Invalid number format: " +:+ value))).
Proof.
  intros Hfind Htype value. branch Hfind Htype.
  destruct (py_float value) as [x|]; repeat split.
  - intros _. now exists x.
  - intros _. eexists. reflexivity.
  - now intros y [= ->].
  - discriminate.
  - now intros [payload H].
  - now intros [y H].
  - discriminate.
Qed.

(** C2. On a SINGLE_SELECT field the dispatcher succeeds exactly when the
    value equals the name of some option; the payload then carries the id
    of the first such option in list order, and otherwise the validation
    error names the value and the field. *)
Theorem resolve_single_select (fields : list ProjectField) (field_name : string)
    (field : ProjectField) :
  find_field fields field_name = Some field ->
  data_type field = "SINGLE_SELECT" ->
  forall value,
    ((exists payload, resolve py_float fields field_name value = inr payload)
     <-> exists opt, In opt (options field) /\ opt_name opt = value)
    /\ (forall pre opt post,
          options field = pre ++ opt :: post ->
          Forall (fun o => opt_name o <> value) pre ->
          opt_name opt = value ->
          resolve py_float fields field_name value
          = inr {| field_id := id field; typed := SingleSelectOptionId (opt_id opt) |})
    /\ ((forall opt, In opt (options field) -> opt_name opt <> value) ->
          resolve py_float fields field_name value
          = inl (ValueValidationError
                   ("Option '" +:+ value +:+ "' not found in field '"
                    +:+ field_name +:+ "'"))).
Proof.
  intros Hfind Htype value. branch Hfind Htype. unfold find_option.
  split; [|split].
  - destruct (find _ (options field)) as [opt|] eqn:Hscan.
    + split; [intros _ | intros _; eexists; reflexivity].
      apply find_some in Hscan as [Hin Hname].
      exists opt. split; [assumption|]. now apply bool_decide_eq_true_1 in Hname.
    + split; [now intros [payload H]|].
      intros (opt & Hin & Hname).
      apply (find_none _ _ Hscan) in Hin. now apply bool_decide_eq_false_1 in Hin.
  - intros pre opt post -> Hpre Hname. rewrite find_first; [reflexivity| |].
    + eapply Forall_impl; [exact Hpre|]. intros o Ho. now apply bool_decide_eq_false_2.
    + now apply bool_decide_eq_true_2.
  - intros Hnone. rewrite find_all_false; [reflexivity|].
    intros o Ho. now apply bool_decide_eq_false_2, Hnone.
Qed.

(** C6. On a field whose type is none of the five handled ones the
    dispatcher fails with [UnsupportedFieldType] for every value. *)
Theorem resolve_unsupported_type (fields : list ProjectField) (field_name : string)
    (field : ProjectField) :
  find_field fields field_name = Some field ->
  ~ In (data_type field) known_types ->
  forall value,
    resolve py_float fields field_name value
    = inl (UnsupportedFieldType ("Unsupported field type: " +:+ data_type field)).
Proof.
  intros Hfind Hother value. unfold resolve. rewrite Hfind.
  rewrite !bool_decide_eq_false_2; [reflexivity|..];
    intros Heq; apply Hother; rewrite Heq; simpl; tauto.
Qed.

(** The scan of an ITERATION field, for any field record. *)
Lemma resolve_iteration_scan (fields : list ProjectField) (field_name : string)
    (field : ProjectField) :
  find_field fields field_name = Some field ->
  data_type field = "ITERATION" ->
  forall value,
    resolve py_float fields field_name value
    = match find_iteration (iterations field) value with
      | Some iteration =>
          inr {| field_id := id field; typed := IterationId (it_id iteration) |}
      | None =>
          inl (ValueValidationError
                 ("Iteration '" +:+ value +:+ "' not found in field '"
                  +:+ field_name +:+ "'"))
      end.
Proof. intros Hfind Htype value. now branch Hfind Htype. Qed.

(** What [get_project_fields] stores in [iterations]: the active list, then
    the completed one. *)
Lemma field_of_data_iterations (field_data : FieldData) (cfg : Configuration) :
  fd_configuration field_data = Some cfg ->
  iterations (field_of_data field_data)
  = default [] (cfg_iterations cfg) ++ default [] (cfg_completedIterations cfg).
Proof.
  intros Hcfg. unfold field_of_data. simpl. rewrite Hcfg. simpl.
  now destruct (cfg_iterations cfg), (cfg_completedIterations cfg).
Qed.

(** C5. The catalog stores the active iterations followed by the completed
    ones.  On an ITERATION field the dispatcher succeeds exactly when the
    value is the title of some entry of that sequence and then carries the
    id of the first such entry, so that an active iteration is preferred
    to a completed one of the same title; otherwise it fails with a
    validation error. *)
Theorem resolve_iteration (fields_data : list FieldData) (field_name : string)
    (field_data : FieldData) (cfg : Configuration) :
  find_field (fields_of_data fields_data) field_name = Some (field_of_data field_data) ->
  fd_dataType field_data = "ITERATION" ->
  fd_configuration field_data = Some cfg ->
  forall value,
    let active := default [] (cfg_iterations cfg) in
    let completed := default [] (cfg_completedIterations cfg) in
    let result := resolve py_float (fields_of_data fields_data) field_name value in
    iterations (field_of_data field_data) = active ++ completed
    /\ ((exists payload, result = inr payload)
        <-> exists it, In it (active ++ completed) /\ it_title it = value)
    /\ (forall pre it post,
          active ++ completed = pre ++ it :: post ->
          Forall (fun i => it_title i <> value) pre ->
          it_title it = value ->
          result = inr {| field_id := fd_id field_data; typed := IterationId (it_id it) |})
    /\ (forall pre it post,
          active = pre ++ it :: post ->
          Forall (fun i => it_title i <> value) pre ->
          it_title it = value ->
          result = inr {| field_id := fd_id field_data; typed := IterationId (it_id it) |})
    /\ ((forall it, In it (active ++ completed) -> it_title it <> value) ->
          result = inl (ValueValidationError
                          ("Iteration '" +:+ value +:+ "' not found in field '"
                           +:+ field_name +:+ "'"))).
Proof.
  intros Hfind Htype Hcfg value active completed result.
  assert (Hits : iterations (field_of_data field_data) = active ++ completed)
    by now apply field_of_data_iterations.
  assert (Hres : result
    = match find_iteration (active ++ completed) value with
      | Some iteration =>
          inr {| field_id := fd_id field_data; typed := IterationId (it_id iteration) |}
      | None =>
          inl (ValueValidationError
                 ("Iteration '" +:+ value +:+ "' not found in field '"
                  +:+ field_name +:+ "'"))
      end).
  { unfold result. rewrite (resolve_iteration_scan _ _ _ Hfind Htype), Hits.
    reflexivity. }
  assert (Hfirst : forall pre it post,
    active ++ completed = pre ++ it :: post ->
    Forall (fun i => it_title i <> value) pre ->
    it_title it = value ->
    result = inr {| field_id := fd_id field_data; typed := IterationId (it_id it) |}).
  { intros pre it post Heq Hpre Htitle. rewrite Hres, Heq. unfold find_iteration.
    rewrite find_first; [reflexivity| |].
    - eapply Forall_impl; [exact Hpre|]. intros i Hi. now apply bool_decide_eq_false_2.
    - now apply bool_decide_eq_true_2. }
  split; [exact Hits|]. split; [|split; [exact Hfirst|split]].
  - rewrite Hres. unfold find_iteration.
    destruct (find _ (active ++ completed)) as [it|] eqn:Hscan.
    + split; [intros _ | intros _; eexists; reflexivity].
      apply find_some in Hscan as [Hin Htitle].
      exists it. split; [assumption|]. now apply bool_decide_eq_true_1 in Htitle.
    + split; [now intros [payload H]|].
      intros (it & Hin & Htitle).
      apply (find_none _ _ Hscan) in Hin. now apply bool_decide_eq_false_1 in Hin.
  - intros pre it post Heq. apply (Hfirst pre it (post ++ completed)).
    rewrite Heq, <- app_assoc. reflexivity.
  - intros Hnone. rewrite Hres. unfold find_iteration.
    rewrite find_all_false; [reflexivity|].
    intros i Hi. now apply bool_decide_eq_false_2, Hnone.
Qed.

(** On a DATE field the dispatcher follows the pattern and hands the value
    on unchanged. *)
Lemma resolve_date_scan (fields : list ProjectField) (field_name : string)
    (field : ProjectField) :
  find_field fields field_name = Some field ->
  data_type field = "DATE" ->
  forall value,
    resolve py_float fields field_name value
    = if Re.date_match value
      then inr {| field_id := id field; typed := Date value |}
      else inl (ValueValidationError
                  ("Invalid date format: " +:+ value +:+ " (expected YYYY-MM-DD)")).
Proof. intros Hfind Htype value. now branch Hfind Htype. Qed.

(** X5. On a DATE field and a value of code points below 256 the
    dispatcher succeeds exactly on the strings of the shape YYYY-MM-DD,
    each of Y, M and D a character of the class [\d], and on those strings
    followed by one line feed, and hands the value on unchanged. *)
Lemma resolve_date (fields : list ProjectField) (field_name : string)
    (field : ProjectField) :
  find_field fields field_name = Some field ->
  data_type field = "DATE" ->
  forall value,
    ((exists payload, resolve py_float fields field_name value = inr payload)
     <-> date_shaped value \/ exists v, date_shaped v /\ value = v +:+ line_feed)
    /\ (forall payload, resolve py_float fields field_name value = inr payload ->
          payload = {| field_id := id field; typed := Date value |}).
Proof.
  intros Hfind Htype value. rewrite (resolve_date_scan _ _ _ Hfind Htype).
  rewrite <- date_match_iff. destruct (Re.date_match value); split.
  - split; [reflexivity | intros _; eexists; reflexivity].
  - now intros payload [= <-].
  - split; [now intros [payload H] | discriminate].
  - discriminate.
Qed.

Example resolve_date_plain :
  resolve py_float Example.fields "Due" "2024-01-15"
  = inr {| field_id := "F3"; typed := Date "2024-01-15" |}.
Proof. reflexivity. Qed.

Example resolve_date_no_calendar :
  resolve py_float Example.fields "Due" "2024-02-30"
  = inr {| field_id := "F3"; typed := Date "2024-02-30" |}
  /\ resolve py_float Example.fields "Due" "2024-13-01"
     = inr {| field_id := "F3"; typed := Date "2024-13-01" |}.
Proof. split; reflexivity. Qed.

Example resolve_date_wrong_order :
  resolve py_float Example.fields "Due" "01-15-2024"
  = inl (ValueValidationError "Invalid date format: 01-15-2024 (expected YYYY-MM-DD)").
Proof. reflexivity. Qed.

(** C4. The value made of 2024-01-15 and one line feed is not of the shape
    YYYY-MM-DD, yet the dispatcher accepts it on a DATE field and hands it
    on with the line feed: [$] also matches just before a final line
    feed. *)
Theorem resolve_date_trailing_line_feed :
  let value := "2024-01-15" +:+ line_feed in
  ~ date_shaped value
  /\ resolve py_float Example.fields "Due" value
     = inr {| field_id := "F3"; typed := Date value |}.
Proof.
  split; [|reflexivity].
  intros (y1 & y2 & y3 & y4 & m1 & m2 & d1 & d2 & _ & Heq).
  vm_compute in Heq. discriminate Heq.
Qed.

End Dispatcher.

(** *** The monad *)

Section Monad.

Context {PyFloat Server : Type}.
Context (execute_graphql_query : @request PyFloat -> Server -> (string + response) * Server).

#[local] Abbreviation M := (M PyFloat Server).

Lemma catchable_ret {A : Type} (a : A) : catchable (ret a : M A).
Proof. now intros w. Qed.

Lemma catchable_raise {A : Type} (e : error) : catchable (raise (Exception e) : M A).
Proof. now intros w. Qed.

Lemma catchable_emit (ev : event) : catchable (emit ev : M unit).
Proof. now intros w. Qed.

Lemma catchable_graphql (r : request) : catchable (graphql execute_graphql_query r).
Proof.
  intros w. unfold graphql.
  destruct (execute_graphql_query r (server w)) as [[message|result] s]; exact I.
Qed.

Lemma catchable_bind {A B : Type} (m : M A) (k : A -> M B) :
  catchable m -> (forall a, catchable (k a)) -> catchable (bind m k).
Proof.
  intros Hm Hk w. unfold bind. specialize (Hm w).
  destruct (m w) as [[e|a] w1]; simpl in *; [assumption|]. apply Hk.
Qed.

Lemma emits_ret {A : Type} (P : event -> Prop) (a : A) : emits P (ret a : M A).
Proof. intros w. exists []. simpl. now rewrite app_nil_r. Qed.

Lemma emits_raise {A : Type} (P : event -> Prop) (e : exn) : emits P (raise e : M A).
Proof. intros w. exists []. simpl. now rewrite app_nil_r. Qed.

Lemma emits_emit (P : event -> Prop) (ev : event) : P ev -> emits P (emit ev : M unit).
Proof. intros Hev w. exists [ev]. simpl. split; [reflexivity | now constructor]. Qed.

Lemma emits_graphql (P : event -> Prop) (r : request) :
  P (Network r) -> emits P (graphql execute_graphql_query r).
Proof.
  intros Hr w. exists [Network r]. unfold graphql.
  destruct (execute_graphql_query r (server w)) as [[message|result] s]; simpl;
    (split; [reflexivity | now constructor]).
Qed.

Lemma emits_bind {A B : Type} (P : event -> Prop) (m : M A) (k : A -> M B) :
  emits P m -> (forall a, emits P (k a)) -> emits P (bind m k).
Proof.
  intros Hm Hk w. unfold bind. destruct (Hm w) as (evs & Hevs & HP).
  destruct (m w) as [[e|a] w1]; simpl in *; [now exists evs|].
  destruct (Hk a w1) as (evs' & Hevs' & HP').
  exists (evs ++ evs'). rewrite Hevs', Hevs, app_assoc.
  split; [reflexivity | now apply Forall_app].
Qed.

Lemma emits_try_except {A : Type} (P : event -> Prop) (body : M A)
    (handler : error -> M A) :
  emits P body -> (forall e, emits P (handler e)) -> emits P (try_except body handler).
Proof.
  intros Hb Hh w. unfold try_except. destruct (Hb w) as (evs & Hevs & HP).
  destruct (body w) as [[[e|code]|a] w1]; simpl in *; try now exists evs.
  destruct (Hh e w1) as (evs' & Hevs' & HP').
  exists (evs ++ evs'). rewrite Hevs', Hevs, app_assoc.
  split; [reflexivity | now apply Forall_app].
Qed.

Lemma offline_ret {A : Type} (a : A) : offline_run (ret a : M A).
Proof. intros w. exists []. split; [|constructor]. destruct w. unfold after. simpl. now rewrite app_nil_r. Qed.

Lemma offline_raise {A : Type} (e : exn) : offline_run (raise e : M A).
Proof. intros w. exists []. split; [|constructor]. destruct w. unfold after. simpl. now rewrite app_nil_r. Qed.

Lemma offline_emit (ev : event) : offline ev -> offline_run (emit ev : M unit).
Proof. intros Hev w. exists [ev]. split; [reflexivity | now constructor]. Qed.

Lemma offline_bind {A B : Type} (m : M A) (k : A -> M B) :
  offline_run m -> (forall a, offline_run (k a)) -> offline_run (bind m k).
Proof.
  intros Hm Hk w. unfold bind. destruct (Hm w) as (evs & Hevs & HP).
  destruct (m w) as [[e|a] w1]; simpl in *; [now exists evs|].
  destruct (Hk a w1) as (evs' & Hevs' & HP').
  exists (evs ++ evs'). rewrite Hevs', Hevs. unfold after. simpl.
  rewrite app_assoc. split; [reflexivity | now apply Forall_app].
Qed.

End Monad.

(** *** The callers: [set_field] and [bulk_update] *)

Section Driver.

Context {PyFloat Server : Type}.
Context (py_float : string -> option PyFloat).
Context (execute_graphql_query : @request PyFloat -> Server -> (string + response) * Server).

#[local] Abbreviation World := (World PyFloat Server).
#[local] Abbreviation gh := execute_graphql_query.

Lemma after_nil (w : World) : after w [] = w.
Proof. destruct w as [s t]. unfold after. simpl. now rewrite app_nil_r. Qed.

Lemma after_app (w : World) (evs evs' : list event) :
  after (after w evs) evs' = after w (evs ++ evs').
Proof. unfold after. simpl. now rewrite app_assoc. Qed.

Ltac catch :=
  repeat first
    [ apply catchable_ret | apply catchable_raise | apply catchable_emit
    | apply catchable_graphql
    | apply catchable_bind; [|intros ?]
    | match goal with
      | |- catchable (if ?b then _ else _) => destruct b
      | |- catchable (match ?x with _ => _ end) => destruct x
      end ].

(** Whatever [update_field_value] raises is an [Exception]. *)
Lemma catchable_update_field_value (project_num : Z)
    (owner item_id field_name value : string) :
  catchable (update_field_value py_float gh project_num owner item_id field_name value).
Proof.
  unfold update_field_value, get_project_fields, get_project_id. catch.
Qed.

(** **** The loop body on three cells, by the three cases of the source *)

Lemma bulk_cells_incomplete (project_num : Z) (owner : string) (dry_run : bool)
    (row_num : nat) (item_id field_name value : string) (updated failed : nat)
    (w : World) :
  complete item_id field_name value = false ->
  bulk_cells py_float gh project_num owner dry_run row_num item_id field_name value
    (updated, failed) w
  = (inr (updated, S failed), after w [Printed (RowMissingRequired row_num)]).
Proof.
  intros Hcells. unfold bulk_cells.
  change (PyStr.truthy _ && PyStr.truthy _ && PyStr.truthy _)
    with (complete item_id field_name value).
  now rewrite Hcells.
Qed.

Lemma bulk_cells_dry_run (project_num : Z) (owner : string)
    (row_num : nat) (item_id field_name value : string) (updated failed : nat)
    (w : World) :
  complete item_id field_name value = true ->
  bulk_cells py_float gh project_num owner true row_num item_id field_name value
    (updated, failed) w
  = (inr (S updated, failed),
     after w [Printed (RowStarted row_num item_id field_name value);
              Printed (DryRunWouldUpdate item_id)]).
Proof.
  intros Hcells. unfold bulk_cells.
  change (PyStr.truthy _ && PyStr.truthy _ && PyStr.truthy _)
    with (complete item_id field_name value).
  rewrite Hcells. unfold bind, print, emit, ret, after. simpl.
  now rewrite <- app_assoc.
Qed.

Lemma bulk_cells_live (project_num : Z) (owner : string)
    (row_num : nat) (item_id field_name value : string) (updated failed : nat)
    (w : World) :
  complete item_id field_name value = true ->
  bulk_cells py_float gh project_num owner false row_num item_id field_name value
    (updated, failed) w
  = match update_field_value py_float gh project_num owner item_id field_name value
            (after w [Printed (RowStarted row_num item_id field_name value)]) with
    | (inr _, w1) =>
        (inr (S updated, failed), after w1 [Printed (RowUpdated row_num); Slept])
    | (inl (Exception e), w1) =>
        (inr (updated, S failed), after w1 [Printed (RowFailed row_num e)])
    | (inl (SystemExit code), w1) => (inl (SystemExit code), w1)
    end.
Proof.
  intros Hcells. unfold bulk_cells.
  change (PyStr.truthy _ && PyStr.truthy _ && PyStr.truthy _)
    with (complete item_id field_name value).
  rewrite Hcells. unfold bind, try_except, print, emit, ret. simpl.
  change {| server := server w;
            trace := trace w ++ [Printed (RowStarted row_num item_id field_name value)] |}
    with (after w [Printed (RowStarted row_num item_id field_name value)]).
  destruct (update_field_value py_float gh project_num owner item_id field_name value
              (after w [Printed (RowStarted row_num item_id field_name value)]))
    as [[[e|code]|ok] w1]; unfold after; simpl; try reflexivity.
  now rewrite <- app_assoc.
Qed.

(** The loop body on three cells always returns, and counts them once. *)
Lemma bulk_cells_returns (project_num : Z) (owner : string) (dry_run : bool)
    (row_num : nat) (item_id field_name value : string) (updated failed : nat)
    (w : World) :
  exists w',
    bulk_cells py_float gh project_num owner dry_run row_num item_id field_name value
      (updated, failed) w
    = (inr (S updated, failed), w')
    \/ bulk_cells py_float gh project_num owner dry_run row_num item_id field_name value
         (updated, failed) w
       = (inr (updated, S failed), w').
Proof.
  destruct (complete item_id field_name value) eqn:Hcells.
  - destruct dry_run.
    + eexists. left. now apply bulk_cells_dry_run.
    + rewrite (bulk_cells_live _ _ _ _ _ _ _ _ _ Hcells).
      pose proof (catchable_update_field_value project_num owner item_id field_name value
                    (after w [Printed (RowStarted row_num item_id field_name value)]))
        as Hcatch.
      destruct (update_field_value _ _ _ _ _ _ _ _) as [[[e|code]|ok] w1];
        simpl in Hcatch; [| contradiction |]; eexists; [right | left]; reflexivity.
  - eexists. right. now apply bulk_cells_incomplete.
Qed.

(** **** The loop body on a row *)

(** On a rectangular row the body works on the three stripped cells. *)
Lemma bulk_row_rectangular (project_num : Z) (owner : string) (dry_run : bool)
    (row_num : nat) (row : gmap string (option string)) (counts : nat * nat) (w : World) :
  rectangular row = true ->
  bulk_row py_float gh project_num owner dry_run row_num row counts w
  = bulk_cells py_float gh project_num owner dry_run row_num
      (row_item_id row) (row_field_name row) (row_value row) counts w.
Proof.
  unfold rectangular, bulk_row, row_item_id, row_field_name, row_value.
  destruct (row_get row "item_id") as [item_id|]; [|discriminate].
  destruct (row_get row "field_name") as [field_name|]; [|discriminate].
  destruct (row_get row "value") as [value|]; [|discriminate].
  reflexivity.
Qed.

(** On a row with [None] in one of the three cells the body raises
    [AttributeError] before it prints or counts anything. *)
Lemma bulk_row_short (project_num : Z) (owner : string) (dry_run : bool)
    (row_num : nat) (row : gmap string (option string)) (counts : nat * nat) (w : World) :
  rectangular row = false ->
  bulk_row py_float gh project_num owner dry_run row_num row counts w
  = (inl (Exception AttributeError), w).
Proof.
  unfold rectangular, bulk_row.
  destruct (row_get row "item_id") as [item_id|]; [|reflexivity].
  destruct (row_get row "field_name") as [field_name|]; [|reflexivity].
  destruct (row_get row "value") as [value|]; [discriminate | reflexivity].
Qed.

(** **** The loop *)

Lemma bulk_rows_returns (project_num : Z) (owner : string) (dry_run : bool)
    (rows : list (gmap string (option string))) :
  forallb rectangular rows = true ->
  forall (row_num updated failed : nat) (w : World),
  exists updated' failed' w',
    bulk_rows py_float gh project_num owner dry_run rows row_num (updated, failed) w
    = (inr (updated', failed'), w')
    /\ updated' + failed' = updated + failed + length rows.
Proof.
  induction rows as [|row rest IH]; intros Hrows row_num updated failed w.
  - exists updated, failed, w. simpl. split; [reflexivity | lia].
  - simpl in Hrows. apply andb_true_iff in Hrows as [Hrow Hrest].
    cbn [bulk_rows]. unfold bind. rewrite (bulk_row_rectangular _ _ _ _ _ _ _ Hrow).
    destruct (bulk_cells_returns project_num owner dry_run row_num
                (row_item_id row) (row_field_name row) (row_value row) updated failed w)
      as (w1 & [Hone | Hone]); rewrite Hone.
    + destruct (IH Hrest (S row_num) (S updated) failed w1)
        as (u & f & w' & Hloop & Hsum).
      exists u, f, w'. split; [exact Hloop | simpl; lia].
    + destruct (IH Hrest (S row_num) updated (S failed) w1)
        as (u & f & w' & Hloop & Hsum).
      exists u, f, w'. split; [exact Hloop | simpl; lia].
Qed.

(** Rows are taken in list order: the loop over a concatenation is the loop
    over the first part followed by the loop over the second, on the
    counters and the world the first part leaves. *)
Lemma bulk_rows_app (project_num : Z) (owner : string) (dry_run : bool)
    (rows rows' : list (gmap string (option string))) :
  forall (row_num : nat) (counts : nat * nat) (w : World),
    bulk_rows py_float gh project_num owner dry_run (rows ++ rows') row_num counts w
    = match bulk_rows py_float gh project_num owner dry_run rows row_num counts w with
      | (inr counts', w') =>
          bulk_rows py_float gh project_num owner dry_run rows'
            (row_num + length rows) counts' w'
      | (inl e, w') => (inl e, w')
      end.
Proof.
  induction rows as [|row rest IH]; intros row_num counts w.
  - simpl. now rewrite Nat.add_0_r.
  - cbn [app bulk_rows]. unfold bind.
    destruct (bulk_row _ _ _ _ _ _ _ _ _) as [[e|counts1] w1]; [reflexivity|].
    rewrite IH. simpl length. now rewrite Nat.add_succ_r.
Qed.

(** The loop stops at the first row that is not rectangular: the exception
    leaves the loop, and the rows after it are never read. *)
Lemma bulk_rows_short (project_num : Z) (owner : string) (dry_run : bool)
    (rows : list (gmap string (option string))) (row : gmap string (option string))
    (rows' : list (gmap string (option string))) :
  forallb rectangular rows = true ->
  rectangular row = false ->
  forall (row_num : nat) (counts : nat * nat) (w : World),
  exists counts' w',
    bulk_rows py_float gh project_num owner dry_run rows row_num counts w
    = (inr counts', w')
    /\ bulk_rows py_float gh project_num owner dry_run (rows ++ row :: rows')
         row_num counts w
       = (inl (Exception AttributeError), w').
Proof.
  intros Hrows Hrow row_num [updated failed] w.
  destruct (bulk_rows_returns project_num owner dry_run rows Hrows row_num updated failed w)
    as (u & f & w' & Hloop & _).
  exists (u, f), w'. split; [exact Hloop|].
  rewrite bulk_rows_app, Hloop. cbn [bulk_rows]. unfold bind.
  now rewrite (bulk_row_short _ _ _ _ _ _ _ Hrow).
Qed.

(** A dry run of rectangular rows is a function of the rows alone. *)
Lemma bulk_rows_dry_run (project_num : Z) (owner : string)
    (rows : list (gmap string (option string))) :
  forallb rectangular rows = true ->
  forall (row_num updated failed : nat) (w : World),
    bulk_rows py_float gh project_num owner true rows row_num (updated, failed) w
    = (inr (updated + length (List.filter row_complete rows),
            failed + length (List.filter (fun row => negb (row_complete row)) rows)),
       after w (dry_run_lines rows row_num)).
Proof.
  induction rows as [|row rest IH]; intros Hrows row_num updated failed w.
  - simpl. now rewrite !Nat.add_0_r, after_nil.
  - simpl in Hrows. apply andb_true_iff in Hrows as [Hrow Hrest].
    cbn [bulk_rows dry_run_lines List.filter]. unfold bind.
    rewrite (bulk_row_rectangular _ _ _ _ _ _ _ Hrow).
    destruct (row_complete row) eqn:Hcells; simpl negb; cbv iota.
    + rewrite (bulk_cells_dry_run _ _ _ _ _ _ _ _ _ Hcells), (IH Hrest), after_app.
      simpl length. now rewrite Nat.add_succ_r.
    + rewrite (bulk_cells_incomplete _ _ _ _ _ _ _ _ _ _ Hcells), (IH Hrest), after_app.
      simpl length. now rewrite Nat.add_succ_r.
Qed.

Lemma dry_run_lines_offline (rows : list (gmap string (option string))) :
  forall row_num, Forall offline (@dry_run_lines PyFloat rows row_num).
Proof.
  induction rows as [|row rest IH]; intros row_num; simpl; [constructor|].
  apply Forall_app. split; [|apply IH].
  destruct (row_complete row); repeat constructor.
Qed.

(** **** What a dry run adds to the world *)

Lemma offline_cell_strip (cell : option string) :
  offline_run (cell_strip cell : M PyFloat Server string).
Proof. destruct cell; [apply offline_ret | apply offline_raise]. Qed.

Lemma offline_bulk_cells (project_num : Z) (owner : string) (row_num : nat)
    (item_id field_name value : string) (counts : nat * nat) :
  offline_run
    (bulk_cells py_float gh project_num owner true row_num item_id field_name value counts).
Proof.
  destruct counts as [updated failed]. unfold bulk_cells.
  destruct (negb _).
  - apply offline_bind; [now apply offline_emit | intros _; apply offline_ret].
  - apply offline_bind; [now apply offline_emit | intros _].
    apply offline_bind; [now apply offline_emit | intros _; apply offline_ret].
Qed.

Lemma offline_bulk_rows (project_num : Z) (owner : string)
    (rows : list (gmap string (option string))) :
  forall (row_num : nat) (counts : nat * nat),
    offline_run (bulk_rows py_float gh project_num owner true rows row_num counts).
Proof.
  induction rows as [|row rest IH]; intros row_num counts; cbn [bulk_rows].
  - apply offline_ret.
  - apply offline_bind; [|intros counts'; apply IH].
    unfold bulk_row.
    apply offline_bind; [apply offline_cell_strip | intros item_id].
    apply offline_bind; [apply offline_cell_strip | intros field_name].
    apply offline_bind; [apply offline_cell_strip | intros value].
    apply offline_bulk_cells.
Qed.

(** **** No empty TEXT value leaves the driver *)

(** A TEXT payload carries the value the dispatcher was given. *)
Lemma resolve_text_value (fields : list ProjectField) (field_name value : string)
    (payload : MutationPayload) (v : string) :
  resolve py_float fields field_name value = inr payload ->
  typed payload = Text v -> v = value.
Proof.
  unfold resolve. destruct (find_field fields field_name) as [field|]; [|discriminate].
  repeat case_bool_decide;
    repeat match goal with
           | |- context [match ?x with _ => _ end] => destruct x
           end;
    intros [= <-]; simpl; congruence.
Qed.

Lemma get_project_id_no_empty_text (project_num : Z) (owner : string) :
  emits no_empty_text (get_project_id (PyFloat := PyFloat) gh project_num owner).
Proof.
  unfold get_project_id. apply emits_bind.
  - destruct (PyStr.contains _ owner);
      (apply emits_bind; [now apply emits_graphql | intros result; apply emits_ret]).
  - intros [[|c rest]|]; first [apply emits_ret | apply emits_raise].
Qed.

(** A call with a value that is not empty sends no mutation that sets a
    TEXT field to the empty string. *)
Lemma update_field_value_no_empty_text (project_num : Z)
    (owner item_id field_name value : string) :
  value <> "" ->
  emits no_empty_text
    (update_field_value py_float gh project_num owner item_id field_name value).
Proof.
  intros Hvalue. unfold update_field_value.
  apply emits_bind; [apply get_project_id_no_empty_text | intros project_id].
  apply emits_bind.
  { unfold get_project_fields.
    apply emits_bind; [apply get_project_id_no_empty_text | intros pid].
    apply emits_bind; [now apply emits_graphql | intros result; apply emits_ret]. }
  intros fields.
  destruct (resolve py_float fields field_name value) as [e|payload] eqn:Hres;
    [apply emits_raise|].
  apply emits_bind.
  - apply emits_graphql. destruct payload as [fid [v| | | |]]; try exact I.
    destruct v as [|c v]; [|exact I]. simpl. apply Hvalue. symmetry.
    now apply (resolve_text_value _ _ _ _ _ Hres).
  - intros result. destruct (updated_item result); [apply emits_ret | apply emits_raise].
Qed.

Lemma bulk_cells_no_empty_text (project_num : Z) (owner : string) (dry_run : bool)
    (row_num : nat) (item_id field_name value : string) (counts : nat * nat) :
  emits no_empty_text
    (bulk_cells py_float gh project_num owner dry_run row_num item_id field_name value
       counts).
Proof.
  destruct counts as [updated failed]. unfold bulk_cells.
  change (PyStr.truthy _ && PyStr.truthy _ && PyStr.truthy _)
    with (complete item_id field_name value).
  destruct (complete item_id field_name value) eqn:Hcells; simpl negb; cbv iota.
  - apply emits_bind; [now apply emits_emit | intros _].
    destruct dry_run.
    + apply emits_bind; [now apply emits_emit | intros _; apply emits_ret].
    + apply emits_try_except.
      * apply emits_bind.
        { apply update_field_value_no_empty_text.
          now apply complete_true_iff in Hcells. }
        intros _. apply emits_bind; [now apply emits_emit | intros _].
        apply emits_bind; [now apply emits_emit | intros _; apply emits_ret].
      * intros e. apply emits_bind; [now apply emits_emit | intros _; apply emits_ret].
  - apply emits_bind; [now apply emits_emit | intros _; apply emits_ret].
Qed.

Lemma cell_strip_no_empty_text (cell : option string) :
  emits no_empty_text (cell_strip cell : M PyFloat Server string).
Proof. destruct cell; [apply emits_ret | apply emits_raise]. Qed.

Lemma bulk_rows_no_empty_text (project_num : Z) (owner : string) (dry_run : bool)
    (rows : list (gmap string (option string))) :
  forall (row_num : nat) (counts : nat * nat),
    emits no_empty_text
      (bulk_rows py_float gh project_num owner dry_run rows row_num counts).
Proof.
  induction rows as [|row rest IH]; intros row_num counts; cbn [bulk_rows].
  - apply emits_ret.
  - apply emits_bind; [|intros counts'; apply IH].
    unfold bulk_row.
    apply emits_bind; [apply cell_strip_no_empty_text | intros item_id].
    apply emits_bind; [apply cell_strip_no_empty_text | intros field_name].
    apply emits_bind; [apply cell_strip_no_empty_text | intros value].
    apply bulk_cells_no_empty_text.
Qed.

(** **** The batch *)

(** X6. Over rectangular rows the bulk driver takes the rows in file order
    and runs to the end: it returns normally, every row is counted once as
    updated or as failed, and the totals are printed last.  A row whose
    update raises any [Exception] (lookup, type support, validation,
    transport) adds one to the failed count and the loop goes on with the
    next row from the world the failed call left; a row whose update
    returns adds one to the updated count. *)
Lemma bulk_update_rectangular (project_num : Z) (owner : string) :
  (forall dry_run rows (w : World),
      forallb rectangular rows = true ->
      exists updated failed w',
        bulk_rows py_float gh project_num owner dry_run rows 2 (0, 0)
          (after w [Logged BulkUpdating])
        = (inr (updated, failed), w')
        /\ updated + failed = length rows
        /\ bulk_update py_float gh project_num owner (Some rows) dry_run w
           = (inr tt,
              after w' (Printed (BulkComplete updated failed)
                        :: if dry_run then [Printed DryRunNotice] else [])))
  /\ (forall row rest row_num updated failed (w : World) e w1,
        rectangular row = true ->
        row_complete row = true ->
        update_field_value py_float gh project_num owner
          (row_item_id row) (row_field_name row) (row_value row)
          (after w [Printed (RowStarted row_num (row_item_id row)
                               (row_field_name row) (row_value row))])
        = (inl (Exception e), w1) ->
        bulk_rows py_float gh project_num owner false (row :: rest) row_num
          (updated, failed) w
        = bulk_rows py_float gh project_num owner false rest (S row_num)
            (updated, S failed) (after w1 [Printed (RowFailed row_num e)]))
  /\ (forall row rest row_num updated failed (w : World) ok w1,
        rectangular row = true ->
        row_complete row = true ->
        update_field_value py_float gh project_num owner
          (row_item_id row) (row_field_name row) (row_value row)
          (after w [Printed (RowStarted row_num (row_item_id row)
                               (row_field_name row) (row_value row))])
        = (inr ok, w1) ->
        bulk_rows py_float gh project_num owner false (row :: rest) row_num
          (updated, failed) w
        = bulk_rows py_float gh project_num owner false rest (S row_num)
            (S updated, failed) (after w1 [Printed (RowUpdated row_num); Slept])).
Proof.
  split; [|split].
  - intros dry_run rows w Hrows.
    destruct (bulk_rows_returns project_num owner dry_run rows Hrows 2 0 0
                (after w [Logged BulkUpdating]))
      as (updated & failed & w' & Hloop & Hsum).
    exists updated, failed, w'. split; [exact Hloop|]. split; [exact Hsum|].
    unfold bulk_update, bind, logger_info, print, emit.
    change {| server := server w; trace := trace w ++ [Logged BulkUpdating] |}
      with (after w [Logged BulkUpdating]).
    rewrite Hloop. destruct dry_run; unfold after, ret; simpl.
    + now rewrite <- app_assoc.
    + reflexivity.
  - intros row rest row_num updated failed w e w1 Hrow Hcells Hcall.
    cbn [bulk_rows]. unfold bind at 1.
    now rewrite (bulk_row_rectangular _ _ _ _ _ _ _ Hrow),
      (bulk_cells_live _ _ _ _ _ _ _ _ _ Hcells), Hcall.
  - intros row rest row_num updated failed w ok w1 Hrow Hcells Hcall.
    cbn [bulk_rows]. unfold bind at 1.
    now rewrite (bulk_row_rectangular _ _ _ _ _ _ _ Hrow),
      (bulk_cells_live _ _ _ _ _ _ _ _ _ Hcells), Hcall.
Qed.

(** A row with [None] in one of the three cells ends the batch: the
    [AttributeError] leaves [bulk_update] from the world the rows before it
    left, so the later rows are never read and no totals are printed. *)
Lemma bulk_update_short (project_num : Z) (owner : string) (dry_run : bool)
    (rows : list (gmap string (option string))) (row : gmap string (option string))
    (rows' : list (gmap string (option string))) (w : World) :
  forallb rectangular rows = true ->
  rectangular row = false ->
  exists counts' w',
    bulk_rows py_float gh project_num owner dry_run rows 2 (0, 0)
      (after w [Logged BulkUpdating])
    = (inr counts', w')
    /\ bulk_update py_float gh project_num owner (Some (rows ++ row :: rows')) dry_run w
       = (inl (Exception AttributeError), w').
Proof.
  intros Hrows Hrow.
  destruct (bulk_rows_short project_num owner dry_run rows row rows' Hrows Hrow 2 (0, 0)
              (after w [Logged BulkUpdating]))
    as (counts' & w' & Hloop & Hshort).
  exists counts', w'. split; [exact Hloop|].
  unfold bulk_update, bind, logger_info, emit.
  change {| server := server w; trace := trace w ++ [Logged BulkUpdating] |}
    with (after w [Logged BulkUpdating]).
  now rewrite Hshort.
Qed.

(** C8. With the dry-run flag set neither caller touches the remote end:
    [set_field] logs and prints that it would set the field and returns;
    [bulk_update], on any file, leaves the server as it was and adds no
    call of the query executor to the trace.  A row whose three stripped
    cells are not empty is counted as updated and reported as a would-be
    update whatever the catalog holds, and over rectangular rows the run
    prints one report per row and then the totals. *)
Theorem dry_run_skips_network (project_num : Z) (owner : string) :
  (forall item_id field_name value (w : World),
      set_field py_float gh project_num owner item_id field_name value true w
      = (inr tt, after w [Logged (SettingField field_name value item_id);
                          Printed (DryRunWouldSet field_name value item_id)]))
  /\ (forall csv_file,
        offline_run (bulk_update py_float gh project_num owner csv_file true))
  /\ (forall row_num row updated failed (w : World),
        rectangular row = true ->
        row_item_id row <> "" -> row_field_name row <> "" -> row_value row <> "" ->
        bulk_row py_float gh project_num owner true row_num row (updated, failed) w
        = (inr (S updated, failed),
           after w [Printed (RowStarted row_num (row_item_id row) (row_field_name row)
                               (row_value row));
                    Printed (DryRunWouldUpdate (row_item_id row))]))
  /\ (forall rows (w : World),
        forallb rectangular rows = true ->
        bulk_update py_float gh project_num owner (Some rows) true w
        = (inr tt,
           after w (Logged BulkUpdating
                    :: dry_run_lines rows 2
                    ++ [Printed (BulkComplete
                                   (length (List.filter row_complete rows))
                                   (length (List.filter
                                              (fun row => negb (row_complete row)) rows)));
                        Printed DryRunNotice]))
        /\ Forall offline (@dry_run_lines PyFloat rows 2)).
Proof.
  split; [|split; [|split]].
  - intros item_id field_name value w.
    unfold set_field, bind, logger_info, print, emit, after. simpl.
    now rewrite <- app_assoc.
  - intros csv_file. unfold bulk_update.
    apply offline_bind; [now apply offline_emit | intros _].
    destruct csv_file as [reader|].
    + apply offline_bind; [apply offline_bulk_rows | intros counts].
      apply offline_bind; [now apply offline_emit | intros _; now apply offline_emit].
    + apply offline_bind; [now apply offline_emit | intros _; apply offline_raise].
  - intros row_num row updated failed w Hrow Hitem Hfield Hvalue.
    rewrite (bulk_row_rectangular _ _ _ _ _ _ _ Hrow).
    apply bulk_cells_dry_run. now apply complete_true_iff.
  - intros rows w Hrows. split; [|apply dry_run_lines_offline].
    unfold bulk_update, bind, logger_info, print, emit.
    change {| server := server w; trace := trace w ++ [Logged BulkUpdating] |}
      with (after w [Logged BulkUpdating]).
    rewrite (bulk_rows_dry_run _ _ _ Hrows). unfold after. simpl.
    now rewrite <- !app_assoc.
Qed.

(** X18. On a row that has a string in each of the three cells the loop
    body works on the cells without the white space at their two ends: each
    is the cell minus a run of white space before and a run after, and
    neither starts nor ends with white space, which is the code points 9
    to 13, 28 to 32, 133 and 160.  Such a cell is empty
    exactly when the cell is blank, and a row one of whose stripped cells
    is empty is reported as missing required fields and counted as failed,
    in a dry run or not, without any call of the dispatcher: the server is
    untouched and nothing else is added to the trace.  A row with three
    non-empty stripped cells reaches [update_field_value], which is given
    the stripped cells; two rows with the same stripped cells are treated
    alike.  No run of [bulk_update], on any file, sends a mutation that
    sets a TEXT field to the empty string. *)
Theorem bulk_row_requires_all_cells (project_num : Z) (owner : string) :
  (forall row item_id field_name value,
      row_get row "item_id" = Some item_id ->
      row_get row "field_name" = Some field_name ->
      row_get row "value" = Some value ->
      strips_to item_id (row_item_id row)
      /\ strips_to field_name (row_field_name row)
      /\ strips_to value (row_value row))
  /\ (forall c, PyStr.isspace c = existsb (Nat.eqb (nat_of_ascii c)) white_space)
  /\ (forall cell, strips_to cell "" <-> blank cell = true)
  /\ (forall dry_run row_num row updated failed (w : World),
        rectangular row = true ->
        row_item_id row = "" \/ row_field_name row = "" \/ row_value row = "" ->
        bulk_row py_float gh project_num owner dry_run row_num row (updated, failed) w
        = (inr (updated, S failed), after w [Printed (RowMissingRequired row_num)]))
  /\ (forall row_num row updated failed (w : World),
        rectangular row = true ->
        row_complete row = true ->
        bulk_row py_float gh project_num owner false row_num row (updated, failed) w
        = match update_field_value py_float gh project_num owner
                  (row_item_id row) (row_field_name row) (row_value row)
                  (after w [Printed (RowStarted row_num (row_item_id row)
                                       (row_field_name row) (row_value row))]) with
          | (inr _, w1) =>
              (inr (S updated, failed), after w1 [Printed (RowUpdated row_num); Slept])
          | (inl (Exception e), w1) =>
              (inr (updated, S failed), after w1 [Printed (RowFailed row_num e)])
          | (inl (SystemExit code), w1) => (inl (SystemExit code), w1)
          end)
  /\ (forall dry_run row_num row row' counts (w : World),
        rectangular row = true -> rectangular row' = true ->
        row_item_id row = row_item_id row' ->
        row_field_name row = row_field_name row' ->
        row_value row = row_value row' ->
        bulk_row py_float gh project_num owner dry_run row_num row counts w
        = bulk_row py_float gh project_num owner dry_run row_num row' counts w)
  /\ (forall dry_run csv_file,
        emits no_empty_text
          (bulk_update py_float gh project_num owner csv_file dry_run)).
Proof.
  split; [|split; [|split; [|split; [|split; [|split]]]]].
  - intros row item_id field_name value Hitem Hfield Hvalue.
    unfold row_item_id, row_field_name, row_value. rewrite Hitem, Hfield, Hvalue.
    repeat split; apply strip_strips.
  - apply isspace_white_space.
  - intros cell. rewrite <- strip_empty_iff. split.
    + intros H. symmetry. now apply strips_to_strip.
    + intros H. rewrite <- H. apply strip_strips.
  - intros dry_run row_num row updated failed w Hrow Hempty.
    rewrite (bulk_row_rectangular _ _ _ _ _ _ _ Hrow).
    apply bulk_cells_incomplete. now apply complete_false_iff.
  - intros row_num row updated failed w Hrow Hcells.
    rewrite (bulk_row_rectangular _ _ _ _ _ _ _ Hrow).
    now apply bulk_cells_live.
  - intros dry_run row_num row row' counts w Hrow Hrow' Hitem Hfield Hvalue.
    rewrite (bulk_row_rectangular _ _ _ _ _ _ _ Hrow),
      (bulk_row_rectangular _ _ _ _ _ _ _ Hrow').
    now rewrite Hitem, Hfield, Hvalue.
  - intros dry_run csv_file. unfold bulk_update.
    apply emits_bind; [now apply emits_emit | intros _].
    destruct csv_file as [reader|].
    + apply emits_bind; [apply bulk_rows_no_empty_text | intros counts].
      apply emits_bind; [now apply emits_emit | intros _].
      destruct dry_run; [now apply emits_emit | apply emits_ret].
    + apply emits_bind; [now apply emits_emit | intros _; apply emits_raise].
Qed.

End Driver.

(** ** The theorems at work on the example project *)

(** The catalog has a field Status; neither another case nor a prefix of
    the name finds it. *)
Lemma resolve_field_not_found_witness :
  (forall f, In f Example.fields -> name f <> "status")
  /\ (forall f, In f Example.fields -> name f <> "Stat")
  /\ resolve Example.decimal Example.fields "status" "Done"
     = inl (FieldNotFound "Field 'status' not found in project")
  /\ resolve Example.decimal Example.fields "Stat" "Done"
     = inl (FieldNotFound "Field 'Stat' not found in project").
Proof.
  assert (Hcase : forall f, In f Example.fields -> name f <> "status").
  { intros f Hf. repeat (destruct Hf as [<- | Hf]; [discriminate|]). destruct Hf. }
  assert (Hprefix : forall f, In f Example.fields -> name f <> "Stat").
  { intros f Hf. repeat (destruct Hf as [<- | Hf]; [discriminate|]). destruct Hf. }
  split; [exact Hcase|]. split; [exact Hprefix|]. split.
  - exact (resolve_field_not_found Example.decimal Example.fields "status" Hcase "Done").
  - exact (resolve_field_not_found Example.decimal Example.fields "Stat" Hprefix "Done").
Defined.

(** Padding is kept and the empty string is accepted. *)
Lemma resolve_text_identity_witness :
  find_field Example.fields "Notes" = Some (field_of_data (Example.plain "F5" "Notes" "TEXT"))
  /\ resolve Example.decimal Example.fields "Notes" "  Done, mostly  "
     = inr {| field_id := "F5"; typed := Text "  Done, mostly  " |}
  /\ resolve Example.decimal Example.fields "Notes" ""
     = inr {| field_id := "F5"; typed := Text "" |}.
Proof.
  split; [reflexivity|]. split.
  - exact (resolve_text_identity Example.decimal Example.fields "Notes" _
             eq_refl eq_refl "  Done, mostly  ").
  - exact (resolve_text_identity Example.decimal Example.fields "Notes" _
             eq_refl eq_refl "").
Defined.

(** With the decimal reader in the place of [float]. *)
Lemma resolve_number_witness :
  find_field Example.fields "Points" = Some (field_of_data (Example.plain "F4" "Points" "NUMBER"))
  /\ Example.decimal "3.14" = Some (314%Z, 2)
  /\ resolve Example.decimal Example.fields "Points" "3.14"
     = inr {| field_id := "F4"; typed := Number (314%Z, 2) |}
  /\ Example.decimal "abc" = None
  /\ resolve Example.decimal Example.fields "Points" "abc"
     = inl (ValueValidationError "Invalid number format: abc").
Proof.
  split; [reflexivity|]. split; [reflexivity|]. split; [|split; [reflexivity|]].
  - exact (proj1 (proj2 (resolve_number Example.decimal Example.fields "Points" _
                           eq_refl eq_refl "3.14")) _ eq_refl).
  - exact (proj2 (proj2 (resolve_number Example.decimal Example.fields "Points" _
                           eq_refl eq_refl "abc")) eq_refl).
Defined.

(** Two options are named Done: the first one is chosen; names are
    compared with their case. *)
Lemma resolve_single_select_witness :
  options (field_of_data Example.status_data)
  = [ {| opt_id := "o1"; opt_name := "Todo" |} ]
    ++ {| opt_id := "o2"; opt_name := "Done" |}
    :: [ {| opt_id := "o3"; opt_name := "Done" |} ]
  /\ resolve Example.decimal Example.fields "Status" "Done"
     = inr {| field_id := "F1"; typed := SingleSelectOptionId "o2" |}
  /\ resolve Example.decimal Example.fields "Status" "Doing"
     = inl (ValueValidationError "Option 'Doing' not found in field 'Status'")
  /\ resolve Example.decimal Example.fields "Status" "done"
     = inl (ValueValidationError "Option 'done' not found in field 'Status'").
Proof.
  split; [reflexivity|]. split; [|split].
  - refine (proj1 (proj2 (resolve_single_select Example.decimal Example.fields "Status"
                            (field_of_data Example.status_data)
                            eq_refl eq_refl "Done"))
              [ {| opt_id := "o1"; opt_name := "Todo" |} ]
              {| opt_id := "o2"; opt_name := "Done" |}
              [ {| opt_id := "o3"; opt_name := "Done" |} ] eq_refl _ eq_refl).
    repeat constructor. discriminate.
  - refine (proj2 (proj2 (resolve_single_select Example.decimal Example.fields "Status"
                            (field_of_data Example.status_data)
                            eq_refl eq_refl "Doing")) _).
    intros opt Hopt. repeat (destruct Hopt as [<- | Hopt]; [discriminate|]). destruct Hopt.
  - refine (proj2 (proj2 (resolve_single_select Example.decimal Example.fields "Status"
                            (field_of_data Example.status_data)
                            eq_refl eq_refl "done")) _).
    intros opt Hopt. repeat (destruct Hopt as [<- | Hopt]; [discriminate|]). destruct Hopt.
Defined.

(** Sprint 2 is both active (i2) and completed (i0): the active one is
    chosen. *)
Lemma resolve_iteration_witness :
  find_field (fields_of_data Example.fields_data) "Sprint"
  = Some (field_of_data Example.sprint_data)
  /\ iterations (field_of_data Example.sprint_data)
     = [ {| it_id := "i2"; it_title := "Sprint 2" |};
         {| it_id := "i3"; it_title := "Sprint 3" |};
         {| it_id := "i1"; it_title := "Sprint 1" |};
         {| it_id := "i0"; it_title := "Sprint 2" |} ]
  /\ resolve Example.decimal (fields_of_data Example.fields_data) "Sprint" "Sprint 2"
     = inr {| field_id := "F2"; typed := IterationId "i2" |}
  /\ resolve Example.decimal (fields_of_data Example.fields_data) "Sprint" "Sprint 9"
     = inl (ValueValidationError "Iteration 'Sprint 9' not found in field 'Sprint'").
Proof.
  split; [reflexivity|]. split; [|split].
  - exact (proj1 (resolve_iteration Example.decimal Example.fields_data "Sprint"
                    Example.sprint_data Example.sprint_configuration
                    eq_refl eq_refl eq_refl "Sprint 2")).
  - refine (proj1 (proj2 (proj2 (proj2
              (resolve_iteration Example.decimal Example.fields_data "Sprint"
                 Example.sprint_data Example.sprint_configuration
                 eq_refl eq_refl eq_refl "Sprint 2"))))
              [] {| it_id := "i2"; it_title := "Sprint 2" |}
              [ {| it_id := "i3"; it_title := "Sprint 3" |} ] eq_refl _ eq_refl).
    constructor.
  - refine (proj2 (proj2 (proj2 (proj2
              (resolve_iteration Example.decimal Example.fields_data "Sprint"
                 Example.sprint_data Example.sprint_configuration
                 eq_refl eq_refl eq_refl "Sprint 9")))) _).
    intros it Hit. repeat (destruct Hit as [<- | Hit]; [discriminate|]). destruct Hit.
Defined.

(** A TEXTAREA field is refused whatever the value. *)
Lemma resolve_unsupported_type_witness :
  find_field Example.fields "Body" = Some (field_of_data (Example.plain "F6" "Body" "TEXTAREA"))
  /\ ~ In "TEXTAREA" known_types
  /\ resolve Example.decimal Example.fields "Body" "anything"
     = inl (UnsupportedFieldType "Unsupported field type: TEXTAREA")
  /\ resolve Example.decimal Example.fields "Body" ""
     = inl (UnsupportedFieldType "Unsupported field type: TEXTAREA").
Proof.
  assert (Hother : ~ In "TEXTAREA" known_types).
  { intros H. repeat (destruct H as [H | H]; [discriminate|]). destruct H. }
  split; [reflexivity|]. split; [exact Hother|]. split.
  - exact (resolve_unsupported_type Example.decimal Example.fields "Body" _
             eq_refl Hother "anything").
  - exact (resolve_unsupported_type Example.decimal Example.fields "Body" _
             eq_refl Hother "").
Defined.

(** The scenario of the specification: two rows, the second with an empty
    value, over a catalog with a Status field and no Priority field. *)
Example bulk_update_two_rows :
  bulk_update Example.decimal Example.execute 1 "ExampleOrg"
    (Some [Example.row "IT1" "Status" "Done"; Example.row "IT2" "Priority" ""])
    false Example.start
  = (inr tt,
     {| server := 4;
        trace :=
          [ Logged BulkUpdating;
            Printed (RowStarted 2 "IT1" "Status" "Done");
            Network (OrganizationProjectQuery "ExampleOrg" 1);
            Network (OrganizationProjectQuery "ExampleOrg" 1);
            Network (ProjectFieldsQuery "PVT_1");
            Network (UpdateFieldMutation "PVT_1" "IT1"
                       {| field_id := "F1"; typed := SingleSelectOptionId "o2" |});
            Printed (RowUpdated 2);
            Slept;
            Printed (RowMissingRequired 3);
            Printed (BulkComplete 1 1) ] |}).
Proof. vm_compute. reflexivity. Qed.

(** Seven rectangular rows, five of them failing each in its own way: the
    run reaches the last row and reports two updated, five failed. *)
Example bulk_update_every_failure :
  exists w',
    bulk_update Example.decimal Example.execute 1 "ExampleOrg"
      (Some Example.reader) false Example.start = (inr tt, w')
    /\ List.last (trace w') Slept = Printed (BulkComplete 2 5)
    /\ List.filter (fun ev => match ev with Printed (RowFailed _ _) => true | _ => false end)
         (trace w')
       = [ Printed (RowFailed 4 (Dispatch
             (FieldNotFound "Field 'Priority' not found in project")));
           Printed (RowFailed 5 (TransportError "GitHub CLI command failed"));
           Printed (RowFailed 6 (Dispatch (ValueValidationError
             "Invalid date format: 01-15-2024 (expected YYYY-MM-DD)")));
           Printed (RowFailed 7 (Dispatch
             (UnsupportedFieldType "Unsupported field type: TEXTAREA"))) ].
Proof. eexists. split; [vm_compute; reflexivity|]. split; vm_compute; reflexivity. Qed.

(** C7. A file whose second row has two cells only: [csv.DictReader] puts
    [None] in its [value] cell, [None.strip()] raises outside the [try],
    and the exception leaves [bulk_update].  The first row was updated; the
    third row is never read, nothing is counted as failed, and no totals
    are printed. *)
Theorem bulk_update_short_row_aborts :
  bulk_update Example.decimal Example.execute 1 "ExampleOrg"
    (Some Example.ragged_reader) false Example.start
  = (inl (Exception AttributeError),
     {| server := 4;
        trace :=
          [ Logged BulkUpdating;
            Printed (RowStarted 2 "IT1" "Status" "Done");
            Network (OrganizationProjectQuery "ExampleOrg" 1);
            Network (OrganizationProjectQuery "ExampleOrg" 1);
            Network (ProjectFieldsQuery "PVT_1");
            Network (UpdateFieldMutation "PVT_1" "IT1"
                       {| field_id := "F1"; typed := SingleSelectOptionId "o2" |});
            Printed (RowUpdated 2);
            Slept ] |}).
Proof. vm_compute. reflexivity. Qed.

(** C10. The row [,Priority] under the header [item_id,field_name,value]:
    its item id is the empty string, and [csv.DictReader] puts [None] in
    its [value] cell.  The row is not reported as missing required fields
    and not counted as failed: [None.strip()] raises at line 759, before
    the check of line 761, in a dry run or not, and nothing is printed.
    A file that holds the row makes [bulk_update] leave with that
    exception; the row after it is never read and no totals are printed.
    The same row with an empty third cell is reported and counted. *)
Theorem bulk_row_short_row_not_reported :
  row_get (Example.short_row "" "Priority") "item_id" = Some ""
  /\ row_get (Example.short_row "" "Priority") "value" = None
  /\ (forall dry_run,
        bulk_row Example.decimal Example.execute 1 "ExampleOrg" dry_run 3
          (Example.short_row "" "Priority") (1, 0) Example.start
        = (inl (Exception AttributeError), Example.start))
  /\ (forall dry_run,
        bulk_row Example.decimal Example.execute 1 "ExampleOrg" dry_run 3
          (Example.row "" "Priority" "") (1, 0) Example.start
        = (inr (1, 1), after Example.start [Printed (RowMissingRequired 3)]))
  /\ bulk_update Example.decimal Example.execute 1 "ExampleOrg"
       (Some [ Example.row "IT1" "Status" "Done";
               Example.short_row "" "Priority";
               Example.row "IT3" "Notes" "hi" ])
       true Example.start
     = (inl (Exception AttributeError),
        {| server := 0;
           trace := [ Logged BulkUpdating;
                      Printed (RowStarted 2 "IT1" "Status" "Done");
                      Printed (DryRunWouldUpdate "IT1") ] |}).
Proof.
  split; [reflexivity|]. split; [reflexivity|]. split; [|split].
  - intros []; vm_compute; reflexivity.
  - intros []; vm_compute; reflexivity.
  - vm_compute. reflexivity.
Qed.

(** A dry run counts a row for a field the catalog does not have. *)
Lemma dry_run_skips_network_witness :
  find_field Example.fields "Priority" = None
  /\ rectangular (Example.row " IT3 " "Priority" "High") = true
  /\ row_item_id (Example.row " IT3 " "Priority" "High") = "IT3"
  /\ bulk_row Example.decimal Example.execute 1 "ExampleOrg" true 4
       (Example.row " IT3 " "Priority" "High") (1, 1) Example.start
     = (inr (2, 1),
        after Example.start
          [ Printed (RowStarted 4 "IT3" "Priority" "High");
            Printed (DryRunWouldUpdate "IT3") ])
  /\ forallb rectangular Example.reader = true
  /\ bulk_update Example.decimal Example.execute 1 "ExampleOrg"
       (Some Example.reader) true Example.start
     = (inr tt,
        after Example.start
          (Logged BulkUpdating
           :: dry_run_lines Example.reader 2
           ++ [Printed (BulkComplete 6 1); Printed DryRunNotice])).
Proof.
  split; [reflexivity|]. split; [reflexivity|]. split; [reflexivity|]. split.
  - apply (proj1 (proj2 (proj2 (dry_run_skips_network
                                  Example.decimal Example.execute 1 "ExampleOrg"))));
      [reflexivity | vm_compute; discriminate ..].
  - split; [reflexivity|].
    exact (proj1 (proj2 (proj2 (proj2 (dry_run_skips_network
                                         Example.decimal Example.execute 1 "ExampleOrg")))
                    Example.reader Example.start eq_refl)).
Defined.

(** A value of three spaces is missing, in a dry run or not; padded cells
    are dispatched without the padding. *)
Lemma bulk_row_requires_all_cells_witness :
  rectangular (Example.row "IT8" "Notes" "   ") = true
  /\ row_value (Example.row "IT8" "Notes" "   ") = ""
  /\ bulk_row Example.decimal Example.execute 1 "ExampleOrg" false 3
       (Example.row "IT8" "Notes" "   ") (1, 0) Example.start
     = (inr (1, 1), after Example.start [Printed (RowMissingRequired 3)])
  /\ bulk_row Example.decimal Example.execute 1 "ExampleOrg" true 3
       (Example.row "IT8" "Notes" "   ") (1, 0) Example.start
     = (inr (1, 1), after Example.start [Printed (RowMissingRequired 3)])
  /\ rectangular (Example.row " IT1" "Status " "  Done  ") = true
  /\ row_complete (Example.row " IT1" "Status " "  Done  ") = true
  /\ bulk_row Example.decimal Example.execute 1 "ExampleOrg" false 3
       (Example.row " IT1" "Status " "  Done  ") (1, 0) Example.start
     = (inr (2, 0),
        {| server := 4;
           trace :=
             [ Printed (RowStarted 3 "IT1" "Status" "Done");
               Network (OrganizationProjectQuery "ExampleOrg" 1);
               Network (OrganizationProjectQuery "ExampleOrg" 1);
               Network (ProjectFieldsQuery "PVT_1");
               Network (UpdateFieldMutation "PVT_1" "IT1"
                          {| field_id := "F1"; typed := SingleSelectOptionId "o2" |});
               Printed (RowUpdated 3);
               Slept ] |}).
Proof.
  assert (Hrow : rectangular (Example.row "IT8" "Notes" "   ") = true) by reflexivity.
  assert (Hvalue : row_value (Example.row "IT8" "Notes" "   ") = "") by reflexivity.
  assert (Hrow' : rectangular (Example.row " IT1" "Status " "  Done  ") = true)
    by reflexivity.
  assert (Hcells : row_complete (Example.row " IT1" "Status " "  Done  ") = true)
    by reflexivity.
  split; [exact Hrow|]. split; [exact Hvalue|]. split; [|split].
  - exact (proj1 (proj2 (proj2 (proj2 (bulk_row_requires_all_cells
                                         Example.decimal Example.execute 1 "ExampleOrg"))))
             false 3 _ 1 0 Example.start Hrow (or_intror (or_intror Hvalue))).
  - exact (proj1 (proj2 (proj2 (proj2 (bulk_row_requires_all_cells
                                         Example.decimal Example.execute 1 "ExampleOrg"))))
             true 3 _ 1 0 Example.start Hrow (or_intror (or_intror Hvalue))).
  - split; [exact Hrow'|]. split; [exact Hcells|].
    rewrite (proj1 (proj2 (proj2 (proj2 (proj2 (bulk_row_requires_all_cells
               Example.decimal Example.execute 1 "ExampleOrg")))))
               3 _ 1 0 Example.start Hrow' Hcells).
    vm_compute. reflexivity.
Defined.

(** ** Further properties of the code *)

(** *** [get_content_id]: which URLs are accepted *)

Lemma append_cons (c : ascii) (a b : string) : String c a +:+ b = String c (a +:+ b).
Proof. reflexivity. Qed.
Lemma append_nil (b : string) : "" +:+ b = b.
Proof. reflexivity. Qed.
Lemma remove_absent (old s : string) : occurs old s = false -> Url.remove old 0 s = s.
Proof.
  induction s as [|c s IH]; [reflexivity|].
  cbn [occurs Url.remove]. intros H. apply orb_false_iff in H as [Hp Hs].
  rewrite Hp. now rewrite IH.
Qed.

Lemma remove_https (s : string) : Url.remove "https://" 0 ("https://" +:+ s) = Url.remove "https://" 0 s.
Proof. destruct s; reflexivity. Qed.

Lemma literal_append (lit s : string) : Url.literal lit (lit +:+ s) = Some s.
Proof.
  induction lit as [|c lit IH]; [reflexivity|].
  rewrite append_cons. cbn [Url.literal]. now rewrite Ascii.eqb_refl.
Qed.

Lemma literal_inv (lit s rest : string) : Url.literal lit s = Some rest -> s = lit +:+ rest.
Proof.
  revert s. induction lit as [|c lit IH]; intros s; cbn [Url.literal].
  - now intros [= ->].
  - destruct s as [|d s]; [discriminate|].
    destruct (Ascii.eqb c d) eqn:E; [|discriminate].
    apply Ascii.eqb_eq in E. subst d. intros H. rewrite append_cons. now rewrite (IH _ H).
Qed.

Lemma segment_append (run rest : string) :
  no_slash run = true -> Url.segment (run +:+ String "/" rest) = Some (run, rest).
Proof.
  unfold no_slash. induction run as [|c run IH]; [reflexivity|].
  cbn [PyStr.contains]. rewrite negb_true_iff, orb_false_iff. intros [Hc Hrun].
  rewrite append_cons. cbn [Url.segment].
  rewrite Ascii.eqb_sym, Hc. rewrite IH; [reflexivity|]. now rewrite Hrun.
Qed.

Lemma segment_inv (s run rest : string) :
  Url.segment s = Some (run, rest) -> s = run +:+ String "/" rest /\ no_slash run = true.
Proof.
  unfold no_slash. revert run. induction s as [|c s IH]; intros run; cbn [Url.segment]; [discriminate|].
  destruct (Ascii.eqb c "/") eqn:E.
  - apply Ascii.eqb_eq in E. subst c. intros [= <- <-]. now split.
  - destruct (Url.segment s) as [[run' after]|]; [|discriminate].
    intros [= <- <-]. destruct (IH run' eq_refl) as [-> Hrun]. split; [reflexivity|].
    cbn [PyStr.contains]. rewrite Ascii.eqb_sym, E. exact Hrun.
Qed.

Lemma digits_append (run rest : string) :
  all_digits run = true -> starts_with_digit rest = false ->
  Url.digits (run +:+ rest) = (run, rest).
Proof.
  unfold all_digits. intros Hrun Hrest. induction run as [|c run IH].
  - rewrite append_nil. destruct rest as [|d rest]; [reflexivity|].
    cbn [Url.digits]. simpl in Hrest. now rewrite Hrest.
  - cbn [list_ascii_of_string forallb] in Hrun. apply andb_true_iff in Hrun as [Hc Hrun].
    rewrite append_cons. cbn [Url.digits]. rewrite Hc. now rewrite (IH Hrun).
Qed.

Lemma digits_inv (s run rest : string) :
  Url.digits s = (run, rest) ->
  s = run +:+ rest /\ all_digits run = true /\ starts_with_digit rest = false.
Proof.
  unfold all_digits. revert run rest. induction s as [|c s IH]; intros run rest; cbn [Url.digits].
  - now intros [= <- <-].
  - destruct (PyStr.isdigit c) eqn:Hc.
    + destruct (Url.digits s) as [run' after]. intros [= <- <-].
      destruct (IH run' after eq_refl) as (-> & Hrun & Hafter).
      repeat split; [|exact Hafter]. cbn [list_ascii_of_string forallb]. now rewrite Hc.
    + intros [= <- <-]. repeat split. simpl. exact Hc.
Qed.

Lemma content_type_append (kind rest : string) :
  kind = "issues" \/ kind = "pull" ->
  Url.content_type (kind +:+ "/" +:+ rest) = Some (kind, rest).
Proof.
  intros [-> | ->]; unfold Url.content_type.
  - change ("issues" +:+ "/" +:+ rest) with ("issues/" +:+ rest).
    now rewrite literal_append.
  - change ("pull" +:+ "/" +:+ rest) with ("pull/" +:+ rest).
    rewrite literal_append. reflexivity.
Qed.

Lemma content_type_inv (s kind rest : string) :
  Url.content_type s = Some (kind, rest) ->
  (kind = "issues" \/ kind = "pull") /\ s = kind +:+ "/" +:+ rest.
Proof.
  unfold Url.content_type.
  destruct (Url.literal "issues/" s) as [after|] eqn:Hi.
  - intros [= <- <-]. split; [now left|]. now apply literal_inv in Hi.
  - destruct (Url.literal "pull/" s) as [after|] eqn:Hp; [|discriminate].
    intros [= <- <-]. split; [now right|]. now apply literal_inv in Hp.
Qed.

Lemma groups_accept (owner repo kind number suffix : string) :
  PyStr.truthy owner = true -> no_slash owner = true ->
  PyStr.truthy repo = true -> no_slash repo = true ->
  kind = "issues" \/ kind = "pull" ->
  PyStr.truthy number = true -> all_digits number = true ->
  starts_with_digit suffix = false ->
  Url.groups (content_subject owner repo kind number suffix)
  = Some (owner, repo, kind, number).
Proof.
  intros Ho Hos Hr Hrs Hk Hn Hnd Hsuf. unfold Url.groups, content_subject.
  rewrite literal_append.
  change (owner +:+ "/" +:+ repo +:+ "/" +:+ kind +:+ "/" +:+ number +:+ suffix)
    with (owner +:+ String "/" (repo +:+ String "/" (kind +:+ "/" +:+ number +:+ suffix))).
  rewrite (segment_append _ _ Hos). destruct owner as [|c o]; [discriminate|].
  rewrite (segment_append _ _ Hrs). destruct repo as [|c' r]; [discriminate|].
  rewrite (content_type_append _ _ Hk), (digits_append _ _ Hnd Hsuf).
  destruct number; [discriminate | reflexivity].
Qed.

(** X12. A URL made of the host, an owner and a repository without slash,
    [issues] or [pull], a number, and any text that does not start with a
    digit is accepted with or without the scheme [https://], provided
    [https://] occurs nowhere else in it: the query is the issue or the
    pull-request query for that owner, repository and number, and the
    text after the number is ignored. *)
Theorem url_accepted (owner repo kind number suffix : string) :
  PyStr.truthy owner = true -> no_slash owner = true ->
  PyStr.truthy repo = true -> no_slash repo = true ->
  kind = "issues" \/ kind = "pull" ->
  PyStr.truthy number = true -> all_digits number = true ->
  starts_with_digit suffix = false ->
  occurs "https://" (content_subject owner repo kind number suffix) = false ->
  content_request_of_url (content_subject owner repo kind number suffix)
  = inr (content_request_for kind owner repo number)
  /\ content_request_of_url ("https://" +:+ content_subject owner repo kind number suffix)
     = inr (content_request_for kind owner repo number).
Proof.
  intros Ho Hos Hr Hrs Hk Hn Hnd Hsuf Hocc.
  unfold content_request_of_url. rewrite remove_https, (remove_absent _ _ Hocc).
  rewrite (groups_accept _ _ _ _ _ Ho Hos Hr Hrs Hk Hn Hnd Hsuf).
  unfold content_request_for. destruct (bool_decide _); now split.
Qed.

(** X13. Whenever a URL of code points below 256 is accepted, what is left
    of it once every [https://] is removed starts with the host, an owner
    and a repository that are not empty and hold no slash, [issues] or
    [pull], and a number made of characters of the class [\d] only, which
    are the ones the query carries; the number is the whole run of such
    characters found there. *)
Theorem url_sound (url : string) (q : content_request) :
  content_request_of_url url = inr q ->
  exists owner repo kind number suffix,
    Url.remove "https://" 0 url = content_subject owner repo kind number suffix
    /\ PyStr.truthy owner = true /\ no_slash owner = true
    /\ PyStr.truthy repo = true /\ no_slash repo = true
    /\ (kind = "issues" \/ kind = "pull")
    /\ PyStr.truthy number = true /\ all_digits number = true
    /\ starts_with_digit suffix = false
    /\ q = content_request_for kind owner repo number.
Proof.
  unfold content_request_of_url, Url.groups.
  destruct (Url.literal "github.com/" _) as [s1|] eqn:H1; [|discriminate].
  destruct (Url.segment s1) as [[[|c o] s2]|] eqn:H2; try discriminate.
  destruct (Url.segment s2) as [[[|c' r] s3]|] eqn:H3; try discriminate.
  destruct (Url.content_type s3) as [[kind s4]|] eqn:H4; [|discriminate].
  destruct (Url.digits s4) as [[|d ds] suffix] eqn:H5; [discriminate|].
  intros Hq. exists (String c o), (String c' r), kind, (String d ds), suffix.
  apply literal_inv in H1. apply segment_inv in H2 as [-> Ho]. apply segment_inv in H3 as [-> Hr].
  apply content_type_inv in H4 as [Hk ->]. apply digits_inv in H5 as (-> & Hd & Hs).
  split.
  { rewrite H1. reflexivity. }
  repeat split; try assumption.
  unfold content_request_for. destruct (bool_decide _); now injection Hq.
Qed.

(** X14. A URL that starts neither with [https://] nor with the letter g
    is refused with the message that quotes it: so are [http://] URLs and
    URLs whose host starts with [www.]. *)
Theorem url_rejected (c : ascii) (rest : string) :
  c <> "g"%char -> String.prefix "https://" (String c rest) = false ->
  content_request_of_url (String c rest)
  = inl ("Invalid GitHub URL format: " +:+ String c rest).
Proof.
  intros Hc Hp. unfold content_request_of_url. cbn [Url.remove]. rewrite Hp.
  unfold Url.groups. cbn [Url.literal].
  destruct (Ascii.eqb "g" c) eqn:E; [|reflexivity].
  apply Ascii.eqb_eq in E. congruence.
Qed.

(** *** [get_project_items]: the field values of an item *)

Section FieldValuesFacts.
Context {Scalar : Type}.
Implicit Types (fv : FieldValueData Scalar) (nodes : list (FieldValueData Scalar)).

Lemma field_values_step_lookup (d : gmap string Scalar) fv (n : string) :
  field_values_step d fv !! n
  = if records n fv then recorded_value fv else d !! n.
Proof.
  unfold field_values_step, records, recorded_value.
  destruct (fv_field_name fv) as [m|]; [|now rewrite bool_decide_eq_false_2].
  destruct (decide (m = n)) as [->|Hne].
  - rewrite bool_decide_eq_true_2 by reflexivity. simpl.
    destruct (PyStr.truthy n); [|reflexivity]. simpl.
    destruct (fv_text fv), (fv_name fv), (fv_date fv), (fv_number fv), (fv_title fv);
      simpl; now rewrite ?lookup_insert_eq.
  - rewrite bool_decide_eq_false_2 by congruence. simpl.
    destruct (PyStr.truthy m); [|reflexivity].
    destruct (fv_text fv), (fv_name fv), (fv_date fv), (fv_number fv), (fv_title fv);
      now rewrite ?lookup_insert_ne.
Qed.

Lemma parse_field_values_snoc nodes fv :
  parse_field_values (nodes ++ [fv]) = field_values_step (parse_field_values nodes) fv.
Proof. unfold parse_field_values. now rewrite fold_left_app. Qed.

(** X15. The dictionary built from the nodes holds, under a field name, the
    value recorded by the last node that records one under that name, and
    nothing under a name no node records; a node records the first of its
    [text], [name], [date], [number] and [title] that is present, under
    its field name when that is not empty. *)
Theorem field_values_last_wins nodes (n : string) :
  parse_field_values nodes !! n
  = match find (records n) (rev nodes) with
    | Some fv => recorded_value fv
    | None => None
    end.
Proof.
  induction nodes as [|fv nodes IH] using rev_ind; [reflexivity|].
  rewrite parse_field_values_snoc, field_values_step_lookup, rev_unit. cbn [find].
  destruct (records n fv); [reflexivity | exact IH].
Qed.
End FieldValuesFacts.

(** *** The table listings *)

Lemma append_length (a b : string) : String.length (a +:+ b) = String.length a + String.length b.
Proof. induction a as [|c a IH]; [reflexivity|]. change (String c a +:+ b) with (String c (a +:+ b)). simpl. now rewrite IH. Qed.

Lemma slice_to_length (n : nat) (s : string) :
  String.length (slice_to n s) = Nat.min n (String.length s).
Proof.
  unfold slice_to. revert s. induction n as [|n IH]; intros [|c s]; simpl; try reflexivity.
  now rewrite IH.
Qed.

Lemma slice_to_prefix (n : nat) (s : string) : String.prefix (slice_to n s) s = true.
Proof.
  unfold slice_to. revert s. induction n as [|n IH]; intros [|c s]; simpl; try reflexivity.
  destruct (ascii_dec c c); [apply IH | congruence].
Qed.

(** X16. A title or a configuration is printed as it is when it fits its
    column (50 and 30 characters), and otherwise cut to the characters
    that leave room for three dots: the printed cell is never longer than
    the column. *)
Theorem table_cells_fit (s : string) :
  (String.length (display_title s) <= 50
   /\ (String.length s <= 50 -> display_title s = s)
   /\ (50 < String.length s ->
       display_title s = slice_to 47 s +:+ "..."
       /\ String.length (display_title s) = 50
       /\ String.prefix (slice_to 47 s) s = true))
  /\ (String.length (display_config s) <= 30
      /\ (String.length s <= 30 -> display_config s = s)
      /\ (30 < String.length s ->
          display_config s = slice_to 27 s +:+ "..."
          /\ String.length (display_config s) = 30
          /\ String.prefix (slice_to 27 s) s = true)).
Proof.
  split.
  - unfold display_title.
    destruct (Nat.ltb_spec 50 (String.length s)) as [Hlong | Hshort].
    + assert (Hlen : String.length (slice_to 47 s +:+ "...") = 50).
      { rewrite append_length, slice_to_length. change (String.length "...") with 3. lia. }
      split; [lia|]. split; [lia|]. intros _.
      repeat split; [exact Hlen | apply slice_to_prefix].
    + split; [lia|]. split; [reflexivity | lia].
  - unfold display_config.
    destruct (Nat.ltb_spec 30 (String.length s)) as [Hlong | Hshort].
    + assert (Hlen : String.length (slice_to 27 s +:+ "...") = 30).
      { rewrite append_length, slice_to_length. change (String.length "...") with 3. lia. }
      split; [lia|]. split; [lia|]. intros _.
      repeat split; [exact Hlen | apply slice_to_prefix].
    + split; [lia|]. split; [reflexivity | lia].
Qed.

(** *** The calls of the API *)

Section Api.
Context {PyFloat Server : Type}.
Context (py_float : string -> option PyFloat).
Context (execute_graphql_query : @request PyFloat -> Server -> (string + response) * Server).
#[local] Abbreviation World := (World PyFloat Server).
#[local] Abbreviation gh := execute_graphql_query.

Lemma get_project_id_eq (project_num : Z) (owner : string) (w : World) :
  get_project_id gh project_num owner w
  = let q := project_query project_num owner in
    let w' := {| server := snd (gh q (server w)); trace := trace w ++ [Network q] |} in
    match fst (gh q (server w)) with
    | inl message => (inl (Exception (TransportError message)), w')
    | inr result =>
        match (if PyStr.contains "/"%char owner
               then user_project_id result
               else organization_project_id result) with
        | Some (String c rest) => (inr (String c rest), w')
        | Some EmptyString | None =>
            (inl (Exception (ProjectNotFound project_num owner)), w')
        end
    end.
Proof.
  unfold get_project_id, project_query, bind, graphql.
  destruct (PyStr.contains "/" owner);
    destruct (gh _ (server w)) as [[message|result] s]; simpl; try reflexivity.
  - now destruct (user_project_id result) as [[|c rest]|].
  - now destruct (organization_project_id result) as [[|c rest]|].
Qed.

(** X1. [get_project_id] makes exactly one call: the user query under the
    login before the first slash when the owner holds a slash, the
    organization query under the owner as given otherwise.  An id it
    returns is the one the answer holds and is never empty, and a failure
    of the executor comes out as it is. *)
Theorem get_project_id_one_call (project_num : Z) (owner : string) (w : World) :
  trace (snd (get_project_id gh project_num owner w))
  = trace w ++ [Network (project_query project_num owner)]
  /\ server (snd (get_project_id gh project_num owner w))
     = snd (gh (project_query project_num owner) (server w))
  /\ (forall project_id,
        fst (get_project_id gh project_num owner w) = inr project_id ->
        project_id <> ""
        /\ exists result,
             fst (gh (project_query project_num owner) (server w)) = inr result
             /\ (if PyStr.contains "/"%char owner
                 then user_project_id result
                 else organization_project_id result) = Some project_id)
  /\ (forall message,
        fst (gh (project_query project_num owner) (server w)) = inl message ->
        fst (get_project_id gh project_num owner w)
        = inl (Exception (TransportError message))).
Proof.
  rewrite get_project_id_eq. cbv zeta.
  destruct (fst (gh (project_query project_num owner) (server w))) as [message|result].
  - split; [reflexivity|]. split; [reflexivity|]. split; [discriminate|].
    now intros m [= <-].
  - destruct (if PyStr.contains "/" owner then user_project_id result
              else organization_project_id result) as [[|c rest]|] eqn:Hid;
      (split; [reflexivity|]; split; [reflexivity|]; split; [|discriminate]);
      try discriminate.
    intros pid [= <-]. split; [discriminate|]. now exists result.
Qed.

Ltac shape H pid pid' payload k :=
  injection H as <- <-;
  exists pid, pid', payload, k; cbn [trace server firstn update_calls];
  repeat match goal with |- _ /\ _ => split end;
  try lia; try discriminate; try (intros; lia);
  try (rewrite <- ?app_assoc; reflexivity).

Lemma update_field_value_shape (project_num : Z)
    (owner item_id field_name value : string) (w : World) r w' :
  update_field_value py_float gh project_num owner item_id field_name value w = (r, w') ->
  exists project_id catalog_project_id payload k,
    1 <= k <= 4
    /\ trace w'
       = trace w
         ++ firstn k (update_calls project_num owner item_id project_id
                        catalog_project_id payload)
    /\ (k = 4 -> exists fields, resolve py_float fields field_name value = inr payload)
    /\ (forall ok, r = inr ok -> k = 4 /\ ok = true)
    /\ (forall e, r = inl (Exception (Dispatch e)) -> k = 3).
Proof.
  unfold update_field_value. unfold bind at 1. rewrite get_project_id_eq. cbv zeta.
  set (q := project_query project_num owner).
  destruct (fst (gh q (server w))) as [m1|r1]; [intros H; shape H "" "" (@no_payload PyFloat) 1|].
  destruct (if PyStr.contains "/" owner then user_project_id r1
            else organization_project_id r1) as [[|c1 pid]|];
    [intros H; shape H "" "" (@no_payload PyFloat) 1| |intros H; shape H "" "" (@no_payload PyFloat) 1].
  unfold get_project_fields. unfold bind at 1. unfold bind at 1.
  rewrite get_project_id_eq. cbv zeta. fold q. cbn [server trace].
  destruct (fst (gh q _)) as [m2|r2]; [intros H; shape H "" "" (@no_payload PyFloat) 2|].
  destruct (if PyStr.contains "/" owner then user_project_id r2
            else organization_project_id r2) as [[|c2 pid']|];
    [intros H; shape H "" "" (@no_payload PyFloat) 2| |intros H; shape H "" "" (@no_payload PyFloat) 2].
  unfold bind at 1. unfold graphql at 1. cbn [server trace].
  destruct (gh (ProjectFieldsQuery (String c2 pid')) _) as [[m3|r3] s3];
    [intros H; shape H "" (String c2 pid') (@no_payload PyFloat) 3|].
  unfold ret at 1. cbv beta iota.
  destruct (resolve py_float (fields_of_data (field_nodes r3)) field_name value)
    as [e|payload] eqn:Hres; [intros H; shape H "" (String c2 pid') (@no_payload PyFloat) 3|].
  unfold bind, graphql. cbn [server trace].
  destruct (gh (UpdateFieldMutation (String c1 pid) item_id payload) s3) as [[m4|r4] s4].
  - intros H. shape H (String c1 pid) (String c2 pid') payload 4. intros _. eauto.
  - destruct (updated_item r4); intros H; shape H (String c1 pid) (String c2 pid') payload 4.
    + intros _. eauto.
    + now intros ok [= <-].
    + intros _. eauto.
Qed.

Lemma mutations_app (t t' : list (@event PyFloat)) :
  mutations (t ++ t') = mutations t + mutations t'.
Proof. unfold mutations. now rewrite List.filter_app, length_app. Qed.

(** X3. When [update_field_value] returns, it returns [True] and has made
    exactly four calls, each in the state the one before left: the project
    query twice, whose answers hold the project id of the mutation and the
    project id of the catalog query; the catalog query; and one mutation
    for the given item, whose payload is what the dispatcher makes of the
    given field name and value over the fields of the catalog that third
    call answered, and whose answer holds an updated item. *)
Theorem update_field_value_four_calls (project_num : Z)
    (owner item_id field_name value : string) (w : World) (ok : bool) (w' : World) :
  update_field_value py_float gh project_num owner item_id field_name value w
  = (inr ok, w') ->
  ok = true
  /\ exists project_id catalog_project_id payload r1 s1 r2 s2 r3 s3 r4,
       gh (project_query project_num owner) (server w) = (inr r1, s1)
       /\ answered_project_id owner r1 = Some project_id
       /\ gh (project_query project_num owner) s1 = (inr r2, s2)
       /\ answered_project_id owner r2 = Some catalog_project_id
       /\ gh (ProjectFieldsQuery catalog_project_id) s2 = (inr r3, s3)
       /\ resolve py_float (fields_of_data (field_nodes r3)) field_name value
          = inr payload
       /\ gh (UpdateFieldMutation project_id item_id payload) s3 = (inr r4, server w')
       /\ updated_item r4 = true
       /\ trace w'
          = trace w ++ update_calls project_num owner item_id project_id
                         catalog_project_id payload.
Proof.
  unfold update_field_value. unfold bind at 1. rewrite get_project_id_eq. cbv zeta.
  unfold answered_project_id.
  set (q := project_query project_num owner).
  destruct (gh q (server w)) as [[m1|r1] s1] eqn:H1; cbn [fst snd]; [discriminate|].
  destruct (if PyStr.contains "/" owner then user_project_id r1
            else organization_project_id r1) as [[|c1 pid]|] eqn:Hid1; try discriminate.
  unfold get_project_fields. unfold bind at 1. unfold bind at 1.
  rewrite get_project_id_eq. cbv zeta. fold q. cbn [server trace].
  destruct (gh q s1) as [[m2|r2] s2] eqn:H2; cbn [fst snd]; [discriminate|].
  destruct (if PyStr.contains "/" owner then user_project_id r2
            else organization_project_id r2) as [[|c2 pid']|] eqn:Hid2; try discriminate.
  unfold bind at 1. unfold graphql at 1. cbn [server trace].
  destruct (gh (ProjectFieldsQuery (String c2 pid')) s2) as [[m3|r3] s3] eqn:H3;
    [discriminate|].
  unfold ret at 1. cbv beta iota.
  destruct (resolve py_float (fields_of_data (field_nodes r3)) field_name value)
    as [e|payload] eqn:Hres; [discriminate|].
  unfold bind, graphql. cbn [server trace].
  destruct (gh (UpdateFieldMutation (String c1 pid) item_id payload) s3)
    as [[m4|r4] s4] eqn:H4; [discriminate|].
  destruct (updated_item r4) eqn:Hupdated; [|discriminate].
  unfold ret. intros [= <- <-]. split; [reflexivity|].
  exists (String c1 pid), (String c2 pid'), payload, r1, s1, r2, s2, r3, s3, r4.
  cbn [server trace update_calls]. fold q.
  repeat match goal with |- _ /\ _ => split end; try reflexivity; try assumption.
  now rewrite <- !app_assoc.
Qed.

(** X2. Whatever its outcome, [update_field_value] adds only calls of the
    executor to the trace, and a mutation among them is for the given item
    and carries a payload the dispatcher produced for the given field name
    and value.  When the dispatcher fails (lookup, type support or
    validation) the calls are the two project queries and the catalog
    query: no mutation was sent. *)
Theorem update_field_value_sends_validated (project_num : Z)
    (owner item_id field_name value : string) :
  emits (sent_for py_float item_id field_name value)
    (update_field_value py_float gh project_num owner item_id field_name value)
  /\ (forall (w : World) e w',
        update_field_value py_float gh project_num owner item_id field_name value w
        = (inl (Exception (Dispatch e)), w') ->
        exists catalog_project_id,
          trace w'
          = trace w ++ [ Network (project_query project_num owner);
                         Network (project_query project_num owner);
                         Network (ProjectFieldsQuery catalog_project_id) ]).
Proof.
  split.
  - intros w.
    destruct (update_field_value py_float gh project_num owner item_id field_name value w)
      as [r w'] eqn:Hrun.
    destruct (update_field_value_shape _ _ _ _ _ _ _ _ Hrun)
      as (pid & pid' & payload & k & Hk & Htrace & Hvalid & _ & _).
    eexists. split; [exact Htrace|].
    assert (Hq : forall n o, sent_for py_float item_id field_name value
                               (Network (@project_query PyFloat n o))).
    { intros n o. unfold project_query. now destruct (PyStr.contains _ o). }
    destruct k as [|[|[|[|[|k]]]]]; try lia; cbn [firstn update_calls];
      repeat (apply List.Forall_cons;
              [first [apply Hq | exact I | (split; [reflexivity | now apply Hvalid])]|]);
      apply List.Forall_nil.
  - intros w e w' Hrun.
    destruct (update_field_value_shape _ _ _ _ _ _ _ _ Hrun)
      as (pid & pid' & payload & k & _ & Htrace & _ & _ & Hdispatch).
    rewrite (Hdispatch e eq_refl) in Htrace. now exists pid'.
Qed.

(** X4. Without the dry-run flag [set_field] either returns, after printing
    the update, or leaves with [sys.exit(1)], after printing the failure:
    every [Exception] of [update_field_value] is turned into exit status 1
    and none escapes. *)
Theorem set_field_exit_status (project_num : Z)
    (owner item_id field_name value : string) :
  (forall w : World,
      fst (set_field py_float gh project_num owner item_id field_name value false w)
      = inr tt
      \/ fst (set_field py_float gh project_num owner item_id field_name value false w)
         = inl (SystemExit 1))
  /\ (forall (w : World) ok w1,
        update_field_value py_float gh project_num owner item_id field_name value
          (after w [Logged (SettingField field_name value item_id)])
        = (inr ok, w1) ->
        set_field py_float gh project_num owner item_id field_name value false w
        = (inr tt, after w1 [Printed (FieldUpdated field_name value)]))
  /\ (forall (w : World) e w1,
        update_field_value py_float gh project_num owner item_id field_name value
          (after w [Logged (SettingField field_name value item_id)])
        = (inl (Exception e), w1) ->
        set_field py_float gh project_num owner item_id field_name value false w
        = (inl (SystemExit 1), after w1 [Printed (FieldUpdateFailed e)])).
Proof.
  assert (Heq : forall w : World,
    set_field py_float gh project_num owner item_id field_name value false w
    = match update_field_value py_float gh project_num owner item_id field_name value
              (after w [Logged (SettingField field_name value item_id)]) with
      | (inr _, w1) => (inr tt, after w1 [Printed (FieldUpdated field_name value)])
      | (inl (Exception e), w1) =>
          (inl (SystemExit 1), after w1 [Printed (FieldUpdateFailed e)])
      | (inl (SystemExit code), w1) => (inl (SystemExit code), w1)
      end).
  { intros w. unfold set_field, bind, try_except, logger_info, print, emit, raise.
    cbn [negb]. 
    change {| server := server w;
              trace := trace w ++ [Logged (SettingField field_name value item_id)] |}
      with (after w [Logged (SettingField field_name value item_id)]).
    now destruct (update_field_value _ _ _ _ _ _ _ _) as [[[e|code]|ok] w1]. }
  split; [|split].
  - intros w. rewrite Heq.
    pose proof (catchable_update_field_value py_float gh project_num owner item_id
                  field_name value
                  (after w [Logged (SettingField field_name value item_id)])) as Hcatch.
    destruct (update_field_value _ _ _ _ _ _ _ _) as [[[e|code]|ok] w1];
      simpl in *; [now right | contradiction | now left].
  - intros w ok w1 Hrun. now rewrite Heq, Hrun.
  - intros w e w1 Hrun. now rewrite Heq, Hrun.
Qed.

Lemma update_field_value_mutations (project_num : Z)
    (owner item_id field_name value : string) (w : World) r w' :
  update_field_value py_float gh project_num owner item_id field_name value w = (r, w') ->
  mutations (trace w) <= mutations (trace w') <= S (mutations (trace w))
  /\ (forall ok, r = inr ok -> mutations (trace w') = S (mutations (trace w))).
Proof.
  intros Hrun.
  destruct (update_field_value_shape _ _ _ _ _ _ _ _ Hrun)
    as (pid & pid' & payload & k & Hk & Htrace & _ & Hok & _).
  rewrite Htrace, mutations_app.
  assert (Hq : @is_mutation PyFloat (Network (project_query project_num owner)) = false).
  { unfold project_query. now destruct (PyStr.contains _ owner). }
  assert (Hcount : mutations (firstn k (update_calls project_num owner item_id pid pid' payload))
                   = if Nat.eqb k 4 then 1 else 0).
  { unfold mutations.
    destruct k as [|[|[|[|[|k]]]]]; try lia; cbn [firstn update_calls List.filter];
      rewrite ?Hq; reflexivity. }
  rewrite Hcount. split.
  - destruct (Nat.eqb k 4); lia.
  - intros ok Hr. destruct (Hok ok Hr) as [-> _]. simpl. lia.
Qed.

Lemma mutations_after (w : World) (evs : list event) :
  Forall offline evs -> mutations (trace (after w evs)) = mutations (trace w).
Proof.
  intros Hevs. unfold after. cbn [trace]. rewrite mutations_app.
  assert (H0 : mutations evs = 0).
  { unfold mutations. induction Hevs as [|ev evs Hev _ IH]; [reflexivity|].
    cbn [List.filter]. destruct ev as [r| | |]; [contradiction|..]; exact IH. }
  lia.
Qed.

(** X11. When the loop returns from a run that is not a dry run, the number
    of mutations it sent is at least the number of rows it counted as
    updated and at most the number of rows with three non-empty cells: a
    row is never counted as updated without a mutation of its own. *)
Theorem bulk_rows_mutations (project_num : Z) (owner : string)
    (rows : list (gmap string (option string))) :
  forall (row_num updated failed : nat) (w : World) updated' failed' w',
    bulk_rows py_float gh project_num owner false rows row_num (updated, failed) w
    = (inr (updated', failed'), w') ->
    updated <= updated'
    /\ mutations (trace w) + (updated' - updated) <= mutations (trace w')
    /\ mutations (trace w')
       <= mutations (trace w) + length (List.filter row_complete rows).
Proof.
  induction rows as [|row rest IH]; intros row_num updated failed w updated' failed' w'.
  - cbn [bulk_rows]. unfold ret. intros [= <- <- <-]. simpl. lia.
  - cbn [bulk_rows List.filter]. unfold bind.
    destruct (rectangular row) eqn:Hrow;
      [|now rewrite (bulk_row_short _ _ _ _ _ _ _ _ _ Hrow)].
    rewrite (bulk_row_rectangular _ _ _ _ _ _ _ _ _ Hrow).
    fold (row_complete row).
    destruct (row_complete row) eqn:Hcells.
    + rewrite (bulk_cells_live _ _ _ _ _ _ _ _ _ _ _ Hcells).
      destruct (update_field_value _ _ _ _ _ _ _ _) as [[[e|code]|ok] w1] eqn:Hrun;
        [| discriminate |];
        destruct (update_field_value_mutations _ _ _ _ _ _ _ _ Hrun) as [Hm Hone];
        rewrite mutations_after in Hm by (repeat constructor);
        intros Hrest; apply IH in Hrest as (Hu & Hlow & Hhigh);
        rewrite mutations_after in Hlow, Hhigh by (repeat constructor).
      * simpl length. lia.
      * specialize (Hone ok eq_refl).
        rewrite mutations_after in Hone by (repeat constructor).
        simpl length. lia.
    + rewrite (bulk_cells_incomplete _ _ _ _ _ _ _ _ _ _ _ _ Hcells).
      intros Hrest. apply IH in Hrest as (Hu & Hlow & Hhigh).
      rewrite mutations_after in Hlow, Hhigh by (repeat constructor). lia.
Qed.

End Api.

(** *** The batch and the dispatcher, further *)

Lemma forallb_false_split {A : Type} (p : A -> bool) (l : list A) :
  forallb p l = false ->
  exists pre x post, l = pre ++ x :: post /\ forallb p pre = true /\ p x = false.
Proof.
  induction l as [|y l IH]; [discriminate|]. simpl.
  destruct (p y) eqn:Hy; simpl.
  - intros H. destruct (IH H) as (pre & x & post & -> & Hpre & Hx).
    exists (y :: pre), x, post. simpl. now rewrite Hy.
  - intros _. now exists [], y, l.
Qed.

Section More.
Context {PyFloat Server : Type}.
Context (py_float : string -> option PyFloat).
Context (execute_graphql_query : @request PyFloat -> Server -> (string + response) * Server).
#[local] Abbreviation World := (World PyFloat Server).
#[local] Abbreviation gh := execute_graphql_query.

(** X7. On the rows the reader yields from a file it reads without
    raising, [bulk_update] returns exactly when every row has a string in
    each of the three cells, and otherwise leaves with the
    [AttributeError] of the first row that has not: whatever the executor
    answers, the loop lets no other exception and no [sys.exit] out, in a
    dry run or not. *)
Theorem bulk_update_outcome (project_num : Z) (owner : string) (dry_run : bool)
    (rows : list (gmap string (option string))) (w : World) :
  (forallb rectangular rows = true <->
   fst (bulk_update py_float gh project_num owner (Some rows) dry_run w) = inr tt)
  /\ (forallb rectangular rows = false <->
      fst (bulk_update py_float gh project_num owner (Some rows) dry_run w)
      = inl (Exception AttributeError)).
Proof.
  destruct (forallb rectangular rows) eqn:Hrows.
  - assert (Hrun : fst (bulk_update py_float gh project_num owner (Some rows) dry_run w)
                   = inr tt).
    { destruct (bulk_rows_returns py_float gh project_num owner dry_run rows Hrows 2 0 0
                  (after w [Logged BulkUpdating]))
        as (updated & failed & w' & Hloop & _).
      unfold bulk_update, bind, logger_info, print, emit.
      change {| server := server w; trace := trace w ++ [Logged BulkUpdating] |}
        with (after w [Logged BulkUpdating]).
      rewrite Hloop. now destruct dry_run. }
    rewrite Hrun. split; split; try reflexivity; discriminate.
  - assert (Hrun : fst (bulk_update py_float gh project_num owner (Some rows) dry_run w)
                   = inl (Exception AttributeError)).
    { destruct (forallb_false_split _ _ Hrows) as (pre & row & post & -> & Hpre & Hrow).
      destruct (bulk_update_short py_float gh project_num owner dry_run pre row post w
                  Hpre Hrow) as (counts' & w' & _ & Hshort).
      now rewrite Hshort. }
    rewrite Hrun. split; split; try reflexivity; discriminate.
Qed.

(** X9. The dispatcher reads the catalog only through the first field that
    carries the requested name: fields before it with other names and all
    fields after it, duplicates of the name included, have no effect on
    the result. *)
Theorem resolve_first_field (pre : list ProjectField) (field : ProjectField)
    (post : list ProjectField) (field_name : string) :
  Forall (fun f => name f <> field_name) pre ->
  name field = field_name ->
  forall value,
    resolve py_float (pre ++ field :: post) field_name value
    = resolve py_float [field] field_name value.
Proof.
  intros Hpre Hname value.
  assert (Hall : find_field (pre ++ field :: post) field_name = Some field).
  { apply find_field_exact. now exists pre, post. }
  assert (Hone : find_field [field] field_name = Some field).
  { apply find_field_exact. exists [], []. repeat split; [constructor | assumption]. }
  unfold resolve. now rewrite Hall, Hone.
Qed.

(** X10. A SINGLE_SELECT field whose node carries no options (or an empty
    list) refuses every value, and so does an ITERATION field whose node
    carries no configuration (or an empty one): the missing key is read as
    an empty list, not as an error of its own. *)
Theorem resolve_missing_keys (fields_data : list FieldData) (field_name : string)
    (field_data : FieldData) :
  find_field (fields_of_data fields_data) field_name = Some (field_of_data field_data) ->
  (fd_dataType field_data = "SINGLE_SELECT" ->
   fd_options field_data = None \/ fd_options field_data = Some [] ->
   forall value,
     resolve py_float (fields_of_data fields_data) field_name value
     = inl (ValueValidationError
              ("Option '" +:+ value +:+ "' not found in field '" +:+ field_name +:+ "'")))
  /\ (fd_dataType field_data = "ITERATION" ->
      configuration_truthy (fd_configuration field_data) = false ->
      forall value,
        resolve py_float (fields_of_data fields_data) field_name value
        = inl (ValueValidationError
                 ("Iteration '" +:+ value +:+ "' not found in field '"
                  +:+ field_name +:+ "'"))).
Proof.
  intros Hfind. split.
  - intros Htype Hoptions value. unfold resolve. rewrite Hfind.
    cbn [data_type field_of_data options]. rewrite Htype.
    repeat (rewrite bool_decide_eq_false_2 by discriminate).
    rewrite bool_decide_eq_true_2 by reflexivity.
    now destruct Hoptions as [-> | ->].
  - intros Htype Hcfg value. unfold resolve. rewrite Hfind.
    cbn [data_type field_of_data iterations]. rewrite Htype, Hcfg.
    repeat (rewrite bool_decide_eq_false_2 by discriminate).
    rewrite bool_decide_eq_true_2 by reflexivity. reflexivity.
Qed.
Lemma emits_ext {A : Type} (P : @event PyFloat -> Prop) (m m' : M PyFloat Server A) :
  (forall w, m w = m' w) -> emits P m' -> emits P m.
Proof. intros Heq Hm w. rewrite Heq. apply Hm. Qed.

Lemma update_field_value_emits (P : @event PyFloat -> Prop) (project_num : Z)
    (owner item_id field_name value : string) :
  P (Network (project_query project_num owner)) ->
  (forall project_id, P (Network (ProjectFieldsQuery project_id))) ->
  (forall project_id payload,
      (exists fields, resolve py_float fields field_name value = inr payload) ->
      P (Network (UpdateFieldMutation project_id item_id payload))) ->
  emits P (update_field_value py_float gh project_num owner item_id field_name value).
Proof.
  intros Hq Hfields Hmutation w.
  destruct (update_field_value py_float gh project_num owner item_id field_name value w)
    as [r w'] eqn:Hrun.
  destruct (update_field_value_shape _ _ _ _ _ _ _ _ _ _ Hrun)
    as (pid & pid' & payload & k & Hk & Htrace & Hvalid & _ & _).
  eexists. split; [exact Htrace|].
  destruct k as [|[|[|[|[|k]]]]]; try lia; cbn [firstn update_calls];
    repeat (apply List.Forall_cons;
            [first [exact Hq | apply Hfields | (apply Hmutation; now apply Hvalid)]|]);
    apply List.Forall_nil.
Qed.

(** A TEXT or DATE payload carries the value the dispatcher was given. *)
Lemma resolve_carried_value (fields : list ProjectField) (field_name value : string)
    (payload : MutationPayload) (v : string) :
  resolve py_float fields field_name value = inr payload ->
  typed payload = Text v \/ typed payload = Date v -> v = value.
Proof.
  unfold resolve. destruct (find_field fields field_name) as [field|]; [|discriminate].
  repeat case_bool_decide;
    repeat match goal with
           | |- context [match ?x with _ => _ end] => destruct x
           end;
    intros [= <-]; simpl; intros [Htyped|Htyped]; congruence.
Qed.

Lemma bulk_cells_trimmed (project_num : Z) (owner : string) (dry_run : bool)
    (row_num : nat) (item_id field_name value : string) (counts : nat * nat) :
  trimmed item_id = true -> trimmed field_name = true -> trimmed value = true ->
  emits cells_trimmed
    (bulk_cells py_float gh project_num owner dry_run row_num item_id field_name value
       counts).
Proof.
  intros Hitem Hfield Hvalue. destruct counts as [updated failed]. unfold bulk_cells.
  destruct (negb _).
  - apply emits_bind; [now apply emits_emit | intros _; apply emits_ret].
  - apply emits_bind; [now apply emits_emit | intros _].
    destruct dry_run.
    + apply emits_bind; [now apply emits_emit | intros _; apply emits_ret].
    + apply emits_try_except.
      * apply emits_bind.
        { apply update_field_value_emits.
          - unfold project_query. now destruct (PyStr.contains _ owner).
          - intros pid. exact I.
          - intros pid payload [fields Hres]. split; [exact Hitem|].
            destruct (typed payload) as [v| |v| |] eqn:Htyped; try exact I.
            + now rewrite (resolve_carried_value _ _ _ _ _ Hres (or_introl Htyped)).
            + now rewrite (resolve_carried_value _ _ _ _ _ Hres (or_intror Htyped)). }
        intros _. apply emits_bind; [now apply emits_emit | intros _].
        apply emits_bind; [now apply emits_emit | intros _; apply emits_ret].
      * intros e. apply emits_bind; [now apply emits_emit | intros _; apply emits_ret].
Qed.

Lemma bulk_rows_trimmed (project_num : Z) (owner : string) (dry_run : bool)
    (rows : list (gmap string (option string))) :
  forall (row_num : nat) (counts : nat * nat),
    emits cells_trimmed
      (bulk_rows py_float gh project_num owner dry_run rows row_num counts).
Proof.
  induction rows as [|row rest IH]; intros row_num counts; cbn [bulk_rows].
  - apply emits_ret.
  - apply emits_bind; [|intros counts'; apply IH].
    destruct (rectangular row) eqn:Hrow.
    + eapply emits_ext; [intros w; now apply bulk_row_rectangular|].
      apply bulk_cells_trimmed; apply strip_trimmed.
    + eapply emits_ext; [intros w; now apply bulk_row_short|].
      apply (emits_raise (A := nat * nat)).
Qed.

(** X17. Whatever the rows hold, the cells the bulk driver reports for a
    started row, the item id of every mutation it sends and the value of
    every TEXT or DATE mutation neither start nor end with a white-space
    character: a padded value cannot be written through [bulk_update]. *)
Theorem bulk_update_sends_stripped (project_num : Z) (owner : string) (dry_run : bool)
    (csv_file : option (list (gmap string (option string)))) :
  emits cells_trimmed (bulk_update py_float gh project_num owner csv_file dry_run).
Proof.
  unfold bulk_update.
  apply emits_bind; [now apply emits_emit | intros _].
  destruct csv_file as [reader|].
  - apply emits_bind; [apply bulk_rows_trimmed | intros counts].
    apply emits_bind; [now apply emits_emit | intros _].
    destruct dry_run; [now apply emits_emit | apply emits_ret].
  - apply emits_bind; [now apply emits_emit | intros _; apply emits_raise].
Qed.

End More.

(** ** The further properties at work *)

(** An update of the Status of IT1 on the example project: the option id
    sent is the one the catalog of the third answer holds for Done. *)
Lemma update_field_value_four_calls_witness :
  update_field_value Example.decimal Example.execute 1 "ExampleOrg" "IT1" "Status" "Done"
    Example.start
  = (inr true,
     {| server := 4;
        trace :=
          [ Network (OrganizationProjectQuery "ExampleOrg" 1);
            Network (OrganizationProjectQuery "ExampleOrg" 1);
            Network (ProjectFieldsQuery "PVT_1");
            Network (UpdateFieldMutation "PVT_1" "IT1"
                       {| field_id := "F1"; typed := SingleSelectOptionId "o2" |}) ] |})
  /\ exists project_id catalog_project_id payload r1 s1 r2 s2 r3 s3 r4,
       Example.execute (project_query 1 "ExampleOrg") 0 = (inr r1, s1)
       /\ answered_project_id "ExampleOrg" r1 = Some project_id
       /\ Example.execute (project_query 1 "ExampleOrg") s1 = (inr r2, s2)
       /\ answered_project_id "ExampleOrg" r2 = Some catalog_project_id
       /\ Example.execute (ProjectFieldsQuery catalog_project_id) s2 = (inr r3, s3)
       /\ resolve Example.decimal (fields_of_data (field_nodes r3)) "Status" "Done"
          = inr payload
       /\ Example.execute (UpdateFieldMutation project_id "IT1" payload) s3 = (inr r4, 4)
       /\ updated_item r4 = true
       /\ [ Network (OrganizationProjectQuery "ExampleOrg" 1);
            Network (OrganizationProjectQuery "ExampleOrg" 1);
            Network (ProjectFieldsQuery "PVT_1");
            Network (UpdateFieldMutation "PVT_1" "IT1"
                       {| field_id := "F1"; typed := SingleSelectOptionId "o2" |}) ]
          = [] ++ update_calls 1 "ExampleOrg" "IT1" project_id catalog_project_id payload.
Proof.
  assert (Hrun :
    update_field_value Example.decimal Example.execute 1 "ExampleOrg" "IT1" "Status" "Done"
      Example.start
    = (inr true,
       {| server := 4;
          trace :=
            [ Network (OrganizationProjectQuery "ExampleOrg" 1);
              Network (OrganizationProjectQuery "ExampleOrg" 1);
              Network (ProjectFieldsQuery "PVT_1");
              Network (UpdateFieldMutation "PVT_1" "IT1"
                         {| field_id := "F1"; typed := SingleSelectOptionId "o2" |}) ] |}))
    by (vm_compute; reflexivity).
  split; [exact Hrun|].
  exact (proj2 (update_field_value_four_calls Example.decimal Example.execute
                  1 "ExampleOrg" "IT1" "Status" "Done" Example.start true _ Hrun)).
Defined.

(** The date followed by a line feed is among the accepted values. *)
Lemma resolve_date_witness :
  find_field Example.fields "Due" = Some (field_of_data (Example.plain "F3" "Due" "DATE"))
  /\ ((exists payload,
         resolve Example.decimal Example.fields "Due" ("2024-01-15" +:+ line_feed)
         = inr payload)
      <-> date_shaped ("2024-01-15" +:+ line_feed)
          \/ exists v, date_shaped v /\ "2024-01-15" +:+ line_feed = v +:+ line_feed)
  /\ forall payload,
       resolve Example.decimal Example.fields "Due" "2024-02-30" = inr payload ->
       payload = {| field_id := "F3"; typed := Date "2024-02-30" |}.
Proof.
  split; [reflexivity|]. split.
  - exact (proj1 (resolve_date Example.decimal Example.fields "Due" _
                    eq_refl eq_refl ("2024-01-15" +:+ line_feed))).
  - exact (proj2 (resolve_date Example.decimal Example.fields "Due" _
                    eq_refl eq_refl "2024-02-30")).
Defined.

(** A row for a field the catalog does not have fails, and the loop goes
    on with the next row. *)
Lemma bulk_update_rectangular_witness :
  rectangular (Example.row "IT3" "Priority" "High") = true
  /\ row_complete (Example.row "IT3" "Priority" "High") = true
  /\ bulk_rows Example.decimal Example.execute 1 "ExampleOrg" false
       [Example.row "IT3" "Priority" "High"; Example.row "IT1" "Status" "Done"]
       2 (0, 0) Example.start
     = bulk_rows Example.decimal Example.execute 1 "ExampleOrg" false
         [Example.row "IT1" "Status" "Done"] 3 (0, 1)
         (after
            {| server := 3;
               trace := [ Printed (RowStarted 2 "IT3" "Priority" "High");
                          Network (OrganizationProjectQuery "ExampleOrg" 1);
                          Network (OrganizationProjectQuery "ExampleOrg" 1);
                          Network (ProjectFieldsQuery "PVT_1") ] |}
            [Printed (RowFailed 2 (Dispatch
               (FieldNotFound "Field 'Priority' not found in project")))]).
Proof.
  split; [reflexivity|]. split; [reflexivity|].
  apply (proj1 (proj2 (bulk_update_rectangular
                         Example.decimal Example.execute 1 "ExampleOrg")));
    vm_compute; reflexivity.
Defined.

(** A second field named Due, of another type, after the first one. *)
Lemma resolve_first_field_witness :
  Forall (fun f => name f <> "Due")
    [field_of_data Example.status_data; field_of_data Example.sprint_data]
  /\ resolve Example.decimal
       ([field_of_data Example.status_data; field_of_data Example.sprint_data]
        ++ field_of_data (Example.plain "F3" "Due" "DATE")
        :: [field_of_data (Example.plain "F9" "Due" "TEXT")])
       "Due" "soon"
     = resolve Example.decimal [field_of_data (Example.plain "F3" "Due" "DATE")]
         "Due" "soon"
  /\ resolve Example.decimal [field_of_data (Example.plain "F3" "Due" "DATE")] "Due" "soon"
     = inl (ValueValidationError "Invalid date format: soon (expected YYYY-MM-DD)").
Proof.
  assert (Hpre : Forall (fun f => name f <> "Due")
            [field_of_data Example.status_data; field_of_data Example.sprint_data])
    by (repeat constructor; discriminate).
  split; [exact Hpre|]. split; [|reflexivity].
  exact (resolve_first_field Example.decimal
           [field_of_data Example.status_data; field_of_data Example.sprint_data]
           (field_of_data (Example.plain "F3" "Due" "DATE"))
           [field_of_data (Example.plain "F9" "Due" "TEXT")]
           "Due" Hpre eq_refl "soon").
Defined.

(** A single-select node without options and an iteration node without
    configuration. *)
Lemma resolve_missing_keys_witness :
  find_field
    (fields_of_data [Example.plain "F7" "Stage" "SINGLE_SELECT";
                     Example.plain "F8" "Cycle" "ITERATION"]) "Stage"
  = Some (field_of_data (Example.plain "F7" "Stage" "SINGLE_SELECT"))
  /\ resolve Example.decimal
       (fields_of_data [Example.plain "F7" "Stage" "SINGLE_SELECT";
                        Example.plain "F8" "Cycle" "ITERATION"]) "Stage" "Done"
     = inl (ValueValidationError "Option 'Done' not found in field 'Stage'")
  /\ resolve Example.decimal
       (fields_of_data [Example.plain "F7" "Stage" "SINGLE_SELECT";
                        Example.plain "F8" "Cycle" "ITERATION"]) "Cycle" "Sprint 1"
     = inl (ValueValidationError "Iteration 'Sprint 1' not found in field 'Cycle'").
Proof.
  split; [reflexivity|]. split.
  - exact (proj1 (resolve_missing_keys Example.decimal
                    [Example.plain "F7" "Stage" "SINGLE_SELECT";
                     Example.plain "F8" "Cycle" "ITERATION"] "Stage"
                    (Example.plain "F7" "Stage" "SINGLE_SELECT") eq_refl)
             eq_refl (or_introl eq_refl) "Done").
  - exact (proj2 (resolve_missing_keys Example.decimal
                    [Example.plain "F7" "Stage" "SINGLE_SELECT";
                     Example.plain "F8" "Cycle" "ITERATION"] "Cycle"
                    (Example.plain "F8" "Cycle" "ITERATION") eq_refl)
             eq_refl eq_refl "Sprint 1").
Defined.

(** Seven rows, two updated: three mutations were sent, one of them for a
    row whose transport failed. *)
Lemma bulk_rows_mutations_witness :
  fst (bulk_rows Example.decimal Example.execute 1 "ExampleOrg" false Example.reader
         2 (0, 0) Example.start) = inr (2, 5)
  /\ mutations (trace (snd (bulk_rows Example.decimal Example.execute 1 "ExampleOrg" false
                              Example.reader 2 (0, 0) Example.start))) = 3
  /\ length (List.filter row_complete Example.reader) = 6
  /\ 0 <= 2
  /\ mutations (trace Example.start) + (2 - 0)
     <= mutations (trace (snd (bulk_rows Example.decimal Example.execute 1 "ExampleOrg"
                                 false Example.reader 2 (0, 0) Example.start)))
  /\ mutations (trace (snd (bulk_rows Example.decimal Example.execute 1 "ExampleOrg" false
                              Example.reader 2 (0, 0) Example.start)))
     <= mutations (trace Example.start)
        + length (List.filter row_complete Example.reader).
Proof.
  split; [vm_compute; reflexivity|]. split; [vm_compute; reflexivity|].
  split; [vm_compute; reflexivity|].
  apply (bulk_rows_mutations Example.decimal Example.execute 1 "ExampleOrg"
           Example.reader 2 0 0 Example.start 2 5).
  vm_compute. reflexivity.
Defined.

(** The files tab of a pull request is taken for the pull request. *)
Lemma url_accepted_witness :
  content_subject "owner" "repo" "pull" "5" "/files" = "github.com/owner/repo/pull/5/files"
  /\ occurs "https://" "github.com/owner/repo/pull/5/files" = false
  /\ content_request_of_url "github.com/owner/repo/pull/5/files"
     = inr (PullRequestIdQuery "owner" "repo" "5")
  /\ content_request_of_url "https://github.com/owner/repo/pull/5/files"
     = inr (PullRequestIdQuery "owner" "repo" "5").
Proof.
  split; [reflexivity|]. split; [reflexivity|].
  exact (url_accepted "owner" "repo" "pull" "5" "/files"
           eq_refl eq_refl eq_refl eq_refl (or_intror eq_refl) eq_refl eq_refl eq_refl
           eq_refl).
Defined.

(** A second [https://] inside the URL is removed too, and what follows it
    is read as part of the number. *)
Lemma url_sound_witness :
  content_request_of_url "https://github.com/owner/repo/issues/12https://9"
  = inr (IssueIdQuery "owner" "repo" "129")
  /\ exists owner repo kind number suffix,
       Url.remove "https://" 0 "https://github.com/owner/repo/issues/12https://9"
       = content_subject owner repo kind number suffix
       /\ PyStr.truthy owner = true /\ no_slash owner = true
       /\ PyStr.truthy repo = true /\ no_slash repo = true
       /\ (kind = "issues" \/ kind = "pull")
       /\ PyStr.truthy number = true /\ all_digits number = true
       /\ starts_with_digit suffix = false
       /\ IssueIdQuery "owner" "repo" "129" = content_request_for kind owner repo number.
Proof.
  split; [reflexivity|].
  exact (url_sound "https://github.com/owner/repo/issues/12https://9"
           (IssueIdQuery "owner" "repo" "129") eq_refl).
Defined.

(** Plain http and a host that starts with www. *)
Lemma url_rejected_witness :
  content_request_of_url "http://github.com/owner/repo/issues/12"
  = inl "Invalid GitHub URL format: http://github.com/owner/repo/issues/12"
  /\ content_request_of_url "www.github.com/owner/repo/issues/12"
     = inl "Invalid GitHub URL format: www.github.com/owner/repo/issues/12".
Proof.
  split.
  - refine (url_rejected "h" "ttp://github.com/owner/repo/issues/12" _ eq_refl).
    discriminate.
  - refine (url_rejected "w" "ww.github.com/owner/repo/issues/12" _ eq_refl).
    discriminate.
Defined.

(** Two nodes for Status: the later one is kept, its text before its name;
    a node without field name and a node without value change nothing. *)
Example field_values_at_work :
  parse_field_values
    [ {| fv_field_name := Some "Status"; fv_text := None; fv_name := Some "Todo";
         fv_date := None; fv_number := None; fv_title := None |};
      {| fv_field_name := None; fv_text := Some "lost"; fv_name := None;
         fv_date := None; fv_number := None; fv_title := None |};
      {| fv_field_name := Some "Status"; fv_text := Some "Done"; fv_name := Some "Todo";
         fv_date := None; fv_number := None; fv_title := None |};
      {| fv_field_name := Some "Status"; fv_text := None; fv_name := None;
         fv_date := None; fv_number := None; fv_title := None |} ]
  = {[ "Status" := "Done" ]}.
Proof. vm_compute. reflexivity. Qed.

(** An owner written with a repository: the user query goes out under the
    login alone, and the id of the answer comes back. *)
Lemma get_project_id_one_call_witness :
  fst (get_project_id Example.execute 7 "alice/tools" Example.start) = inr "PVT_1"
  /\ trace (snd (get_project_id Example.execute 7 "alice/tools" Example.start))
     = [Network (UserProjectQuery "alice" 7)]
  /\ "PVT_1" <> ""
  /\ exists result,
       fst (Example.execute (project_query 7 "alice/tools") 0) = inr result
       /\ user_project_id result = Some "PVT_1".
Proof.
  split; [reflexivity|]. split.
  - exact (proj1 (get_project_id_one_call Example.execute 7 "alice/tools" Example.start)).
  - exact (proj1 (proj2 (proj2 (get_project_id_one_call Example.execute 7 "alice/tools"
                                  Example.start)))
             "PVT_1" eq_refl).
Defined.

(** A value that is no date: the three queries, no mutation, exit status 1. *)
Lemma set_field_exit_status_witness :
  update_field_value Example.decimal Example.execute 1 "ExampleOrg" "IT1" "Due" "soon"
    (after Example.start [Logged (SettingField "Due" "soon" "IT1")])
  = (inl (Exception (Dispatch (ValueValidationError
            "Invalid date format: soon (expected YYYY-MM-DD)"))),
     {| server := 3;
        trace :=
          [ Logged (SettingField "Due" "soon" "IT1");
            Network (OrganizationProjectQuery "ExampleOrg" 1);
            Network (OrganizationProjectQuery "ExampleOrg" 1);
            Network (ProjectFieldsQuery "PVT_1") ] |})
  /\ set_field Example.decimal Example.execute 1 "ExampleOrg" "IT1" "Due" "soon" false
       Example.start
     = (inl (SystemExit 1),
        after
          {| server := 3;
             trace :=
               [ Logged (SettingField "Due" "soon" "IT1");
                 Network (OrganizationProjectQuery "ExampleOrg" 1);
                 Network (OrganizationProjectQuery "ExampleOrg" 1);
                 Network (ProjectFieldsQuery "PVT_1") ] |}
          [Printed (FieldUpdateFailed (Dispatch (ValueValidationError
             "Invalid date format: soon (expected YYYY-MM-DD)")))]).
Proof.
  assert (Hrun :
    update_field_value Example.decimal Example.execute 1 "ExampleOrg" "IT1" "Due" "soon"
      (after Example.start [Logged (SettingField "Due" "soon" "IT1")])
    = (inl (Exception (Dispatch (ValueValidationError
              "Invalid date format: soon (expected YYYY-MM-DD)"))),
       {| server := 3;
          trace :=
            [ Logged (SettingField "Due" "soon" "IT1");
              Network (OrganizationProjectQuery "ExampleOrg" 1);
              Network (OrganizationProjectQuery "ExampleOrg" 1);
              Network (ProjectFieldsQuery "PVT_1") ] |}))
    by (vm_compute; reflexivity).
  split; [exact Hrun|].
  exact (proj2 (proj2 (set_field_exit_status Example.decimal Example.execute
                         1 "ExampleOrg" "IT1" "Due" "soon"))
           Example.start _ _ Hrun).
Defined.

(** A title of 51 characters is cut to 47 and three dots; one of 50 is
    printed whole. *)
Lemma table_cells_fit_witness :
  (50 < String.length "012345678901234567890123456789012345678901234567890"
   /\ display_title "012345678901234567890123456789012345678901234567890"
      = "01234567890123456789012345678901234567890123456..."
   /\ String.length (display_title "012345678901234567890123456789012345678901234567890")
      = 50)
  /\ (String.length "01234567890123456789012345678901234567890123456789" <= 50
      /\ display_title "01234567890123456789012345678901234567890123456789"
         = "01234567890123456789012345678901234567890123456789")
  /\ (30 < String.length "0123456789012345678901234567890"
      /\ display_config "0123456789012345678901234567890"
         = "012345678901234567890123456...").
Proof.
  assert (H51 : 50 < String.length "012345678901234567890123456789012345678901234567890")
    by (vm_compute; lia).
  assert (H50 : String.length "01234567890123456789012345678901234567890123456789" <= 50)
    by (vm_compute; lia).
  assert (H31 : 30 < String.length "0123456789012345678901234567890")
    by (vm_compute; lia).
  split; [|split].
  - split; [exact H51|]. split.
    + exact (proj1 (proj2 (proj2 (proj1
        (table_cells_fit "012345678901234567890123456789012345678901234567890"))) H51)).
    + exact (proj1 (proj2 (proj2 (proj2 (proj1
        (table_cells_fit "012345678901234567890123456789012345678901234567890"))) H51))).
  - split; [exact H50|].
    exact (proj1 (proj2 (proj1
      (table_cells_fit "01234567890123456789012345678901234567890123456789"))) H50).
  - split; [exact H31|].
    exact (proj1 (proj2 (proj2 (proj2
      (table_cells_fit "0123456789012345678901234567890"))) H31)).
Defined.

(** A field the catalog does not have: the two project queries and the
    catalog query, and no mutation. *)
Lemma update_field_value_sends_validated_witness :
  update_field_value Example.decimal Example.execute 1 "ExampleOrg" "IT3" "Priority" "High"
    Example.start
  = (inl (Exception (Dispatch (FieldNotFound "Field 'Priority' not found in project"))),
     {| server := 3;
        trace := [ Network (OrganizationProjectQuery "ExampleOrg" 1);
                   Network (OrganizationProjectQuery "ExampleOrg" 1);
                   Network (ProjectFieldsQuery "PVT_1") ] |})
  /\ exists catalog_project_id,
       [ Network (OrganizationProjectQuery (PyFloat := Z * nat) "ExampleOrg" 1);
         Network (OrganizationProjectQuery "ExampleOrg" 1);
         Network (ProjectFieldsQuery "PVT_1") ]
       = [] ++ [ Network (project_query 1 "ExampleOrg");
                 Network (project_query 1 "ExampleOrg");
                 Network (ProjectFieldsQuery catalog_project_id) ].
Proof.
  assert (Hrun :
    update_field_value Example.decimal Example.execute 1 "ExampleOrg" "IT3" "Priority" "High"
      Example.start
    = (inl (Exception (Dispatch (FieldNotFound "Field 'Priority' not found in project"))),
       {| server := 3;
          trace := [ Network (OrganizationProjectQuery "ExampleOrg" 1);
                     Network (OrganizationProjectQuery "ExampleOrg" 1);
                     Network (ProjectFieldsQuery "PVT_1") ] |}))
    by (vm_compute; reflexivity).
  split; [exact Hrun|].
  exact (proj2 (update_field_value_sends_validated Example.decimal Example.execute
                  1 "ExampleOrg" "IT3" "Priority" "High")
           Example.start _ _ Hrun).
Defined.
